(** * fionacode analysis tools: API extraction, docstring validation, exit criteria

    A shallow embedding of three Python scripts

      - [.opencode/tool/extract_api.py]          (module [ExtractApi])
      - [.opencode/tool/validate_docstrings.py]  (module [ValidateDocstrings])
      - [.opencode/tool/exit_criteria_checker.py] (module [ExitCriteria])

    together with the parts of the Python runtime they call ([str] methods,
    [re], [ast.walk], [ast.get_docstring], [json.dumps], binary64 floats).
    Definitions come first, the theorems about them follow. *)

From Stdlib Require Import ZArith NArith List String Ascii Lia Bool Permutation.
From Stdlib Require Import Floats.SpecFloat.
From stdpp Require Import gmap.
Import ListNotations.

Set Warnings "-register-all".

Open Scope Z_scope.

(* ===================================================================== *)
(** * Python strings *)
(* ===================================================================== *)

(** A Python [str] is a sequence of Unicode code points. *)
Definition str := list N.

(** ASCII literals of the scripts, written as Rocq strings. *)
Definition lit (s : string) : str :=
  List.map N_of_ascii (list_ascii_of_string s).

Arguments lit : simpl never.

Definition str_eqb (a b : str) : bool := bool_decide (a = b).

(** What the Unicode character database says about the code points outside
    ASCII.  The scripts never mention it, the runtime consults it; it is a
    parameter of every function that classifies characters. *)
Record unicode_db := {
  uc_isalnum : N -> bool;   (* str.isalnum on one code point, used by \w *)
  uc_islower : N -> bool;
  uc_isupper : N -> bool;
  uc_istitle : N -> bool;
  (* [uc_ignorecase p t]: the text code point [t] matches the pattern
     letter [p] under re.IGNORECASE *)
  uc_ignorecase : N -> N -> bool
}.

(** The database that knows no character outside ASCII: enough to run the
    scripts on ASCII text. *)
Definition ascii_only_db : unicode_db :=
  {| uc_isalnum := fun _ => false;
     uc_islower := fun _ => false;
     uc_isupper := fun _ => false;
     uc_istitle := fun _ => false;
     uc_ignorecase := fun _ _ => false |}.

Definition in_range (lo hi c : N) : bool := ((lo <=? c) && (c <=? hi))%N.

Definition is_ascii (c : N) : bool := (c <? 128)%N.
Definition ascii_isupper (c : N) : bool := in_range 65 90 c.
Definition ascii_islower (c : N) : bool := in_range 97 122 c.
Definition ascii_isdigit (c : N) : bool := in_range 48 57 c.
Definition ascii_tolower (c : N) : N := if ascii_isupper c then (c + 32)%N else c.

(** Py_UNICODE_ISSPACE: the characters [str.strip()] removes and [\s]
    matches in a [str] pattern. *)
Definition isspace (c : N) : bool :=
  in_range 9 13 c || in_range 28 32 c || (c =? 133)%N || (c =? 160)%N
  || (c =? 5760)%N || in_range 8192 8202 c || (c =? 8232)%N || (c =? 8233)%N
  || (c =? 8239)%N || (c =? 8287)%N || (c =? 12288)%N.

Section Chars.
Variable db : unicode_db.

Definition islower_char (c : N) : bool :=
  if is_ascii c then ascii_islower c else uc_islower db c.
Definition isupper_char (c : N) : bool :=
  if is_ascii c then ascii_isupper c else uc_isupper db c.
Definition istitle_char (c : N) : bool :=
  if is_ascii c then false else uc_istitle db c.
Definition isalnum_char (c : N) : bool :=
  if is_ascii c then ascii_isupper c || ascii_islower c || ascii_isdigit c
  else uc_isalnum db c.

(** [\w] in a [str] pattern: alphanumeric or underscore. *)
Definition isword (c : N) : bool := isalnum_char c || (c =? 95)%N.

(** [str.isupper()]: no lower-case or title-case character, and at least
    one upper-case one. *)
Definition isupper (s : str) : bool :=
  forallb (fun c => negb (islower_char c || istitle_char c)) s
  && existsb isupper_char s.

(** A pattern letter [p] against a text character [t] under
    re.IGNORECASE. *)
Definition ignorecase_eq (p t : N) : bool :=
  if is_ascii t then (ascii_tolower p =? ascii_tolower t)%N
  else uc_ignorecase db p t.
End Chars.

(** [s.startswith(prefix)] *)
Fixpoint startswith (prefix s : str) : bool :=
  match prefix, s with
  | [], _ => true
  | p :: prefix', c :: s' => (p =? c)%N && startswith prefix' s'
  | _ :: _, [] => false
  end.

(** [sep.join(parts)] *)
Fixpoint join (sep : str) (parts : list str) : str :=
  match parts with
  | [] => []
  | [p] => p
  | p :: rest => p ++ sep ++ join sep rest
  end.

(** [s.replace(old, new)]: every non-overlapping occurrence, left to right.
    [skip] counts the characters of an occurrence still to be dropped. *)
Fixpoint replace_from (old new : str) (skip : nat) (s : str) : str :=
  match s with
  | [] => if (Nat.eqb (length old) 0) then new else []
  | c :: s' =>
      match skip with
      | S k => replace_from old new k s'
      | O =>
          if Nat.eqb (length old) 0 then new ++ c :: replace_from old new 0 s'
          else if startswith old s
               then new ++ replace_from old new (length old - 1) s'
               else c :: replace_from old new 0 s'
      end
  end.

Definition replace (old new s : str) : str := replace_from old new 0 s.

(** [s.strip()] *)
Fixpoint lstrip (s : str) : str :=
  match s with
  | c :: s' => if isspace c then lstrip s' else s
  | [] => []
  end.

Definition rstrip (s : str) : str := rev (lstrip (rev s)).
Definition strip (s : str) : str := rstrip (lstrip s).

(** Membership of a string in a list or set literal: [x in xs]. *)
Definition str_in (x : str) (xs : list str) : bool := existsb (str_eqb x) xs.

(** Truth value of a string: [if s]. *)
Definition truthy (s : str) : bool := negb (Nat.eqb (length s) 0).

(* ===================================================================== *)
(** * The syntax trees of the [ast] module *)
(* ===================================================================== *)

Module ast.

(** Values of [ast.Constant]: only string constants are told apart. *)
Inductive constant :=
| CStr (s : str)
| COther.

(** Expressions, as far as the scripts inspect them. *)
Inductive expr :=
| Name (id : str)
| Constant (value : constant)
| List (elts : list expr)
| Tuple (elts : list expr)
| OtherExpr.

(** [ast.arguments]; every parameter is kept by its name ([arg.arg]). *)
Record arguments := {
  posonlyargs : list str;
  args : list str;
  vararg : option str;
  kwonlyargs : list str;
  kwarg : option str
}.

(** Statements, and the other nodes that hold statements.  [Other] is any
    node the scripts do not match on: a simple statement (no children), a
    compound statement ([If], [For], [While], [With], [Try], [Match]) or
    one of its clauses ([ExceptHandler], [match_case]), with its child
    nodes in field order.  Expression nodes are never listed as children:
    they are neither [Assign] nor [FunctionDef] and hold no statement, so
    leaving them out changes nothing in the order in which [ast.walk]
    reaches the statements. *)
Inductive node :=
| ClassDef (name : str) (body : list node) (lineno : Z)
| FunctionDef (name : str) (args : arguments) (body : list node)
              (returns : option expr) (lineno : Z)
| AsyncFunctionDef (name : str) (args : arguments) (body : list node)
                   (returns : option expr) (lineno : Z)
| Assign (targets : list expr) (value : expr) (lineno : Z)
| Expr (value : expr) (lineno : Z)
| Other (children : list node).

(** [ast.Module] *)
Record Module_ := { body : list node }.

(** The outcome of [ast.parse(content, filepath)]: a tree, a
    [SyntaxError] carrying [str(e)], or another exception (a [ValueError]
    for a text with a null byte, a [RecursionError] or [MemoryError] for
    a text nested too deeply), which neither script catches. *)
Inductive parsed :=
| Tree (tree : Module_)
| SyntaxError (msg : str)
| OtherException (exc : str).

Definition iter_child_nodes (n : node) : list node :=
  match n with
  | ClassDef _ body _ => body
  | FunctionDef _ _ body _ _ => body
  | AsyncFunctionDef _ _ body _ _ => body
  | Assign _ _ _ => []
  | Expr _ _ => []
  | Other children => children
  end.

Fixpoint size (n : node) : nat :=
  match n with
  | ClassDef _ body _ => S (list_sum (List.map size body))
  | FunctionDef _ _ body _ _ => S (list_sum (List.map size body))
  | AsyncFunctionDef _ _ body _ _ => S (list_sum (List.map size body))
  | Assign _ _ _ => 1%nat
  | Expr _ _ => 1%nat
  | Other children => S (list_sum (List.map size children))
  end.

Definition sizes (l : list node) : nat := list_sum (List.map size l).

(** [ast.walk]: pop the first node of the queue, push its children at the
    back, yield it.  [fuel] bounds the number of nodes yielded. *)
Fixpoint walk_queue (fuel : nat) (todo : list node) : list node :=
  match fuel, todo with
  | S fuel', n :: rest => n :: walk_queue fuel' (rest ++ iter_child_nodes n)
  | _, _ => []
  end.

(** [ast.walk(tree)], without the [Module] node itself (which is matched
    by no test of the scripts). *)
Definition walk (tree : Module_) : list node :=
  walk_queue (sizes (body tree)) (body tree).

(** [within n t]: the node [n] is [t] or lies below it. *)
Inductive within (n : node) : node -> Prop :=
| within_here : within n n
| within_child (c t : node) :
    In c (iter_child_nodes t) -> within n c -> within n t.

(** The nodes of a module: those at or below a statement of its body. *)
Definition occurs (n : node) (tree : Module_) : Prop :=
  exists t, In t (body tree) /\ within n t.

Definition is_AsyncFunctionDef (n : node) : bool :=
  match n with AsyncFunctionDef _ _ _ _ _ => true | _ => false end.

(** [ast.get_docstring(node)] for a function node: the string constant
    that is the first statement of the body, cleaned by
    [inspect.cleandoc] (a parameter). *)
Definition get_docstring (cleandoc : str -> str) (n : node) : option str :=
  match iter_child_nodes n with
  | Expr (Constant (CStr text)) _ :: _ => Some (cleandoc text)
  | _ => None
  end.

End ast.

(* ===================================================================== *)
(** * Regular expressions: the fragment of [re] the scripts use *)
(* ===================================================================== *)

Module re.

Inductive class := Space | Word.        (* \s and \w *)

Inductive regex :=
| Lit (s : str)                 (* literal characters *)
| Star (c : class)              (* c*, greedy *)
| Plus (c : class)              (* c+, greedy *)
| Opt (r : regex)               (* r?, greedy *)
| Alt (r1 r2 : regex)           (* r1|r2 *)
| Seq (r1 r2 : regex)
| Group (r : regex)             (* capturing group *)
| Bol.                          (* ^ *)

Record flags := { IGNORECASE : bool; MULTILINE : bool }.

Section Matcher.
Variable db : unicode_db.
Variable fl : flags.
Context {A : Type}.

Definition in_class (c : class) (x : N) : bool :=
  match c with
  | Space => isspace x
  | Word => isword db x
  end.

(** A pattern character against a text character.  Only letters are
    compared without case. *)
Definition char_match (p t : N) : bool :=
  if IGNORECASE fl && (ascii_isupper p || ascii_islower p)
  then ignorecase_eq db p t
  else (p =? t)%N.

(** [^]: at the start of the text, and with MULTILINE after every
    newline.  [prev] is the character before the position. *)
Definition at_bol (prev : option N) : bool :=
  match prev with
  | None => true
  | Some c => MULTILINE fl && (c =? 10)%N
  end.

(** The continuation receives the character before the new position
    and the rest of the text. *)
Fixpoint match_lit (l : str) (prev : option N) (s : str)
         (k : option N -> str -> option A) : option A :=
  match l with
  | [] => k prev s
  | p :: l' =>
      match s with
      | t :: s' => if char_match p t then match_lit l' (Some t) s' k else None
      | [] => None
      end
  end.

(** Greedy repetition: the longest run first, then shorter ones. *)
Fixpoint match_star (c : class) (prev : option N) (s : str)
         (k : option N -> str -> option A) : option A :=
  match s with
  | t :: s' =>
      if in_class c t then
        match match_star c (Some t) s' k with
        | Some a => Some a
        | None => k prev s
        end
      else k prev s
  | [] => k prev s
  end.

(** The backtracking matcher.  [cap] is the text of group 1 so far. *)
Fixpoint match_at (r : regex) (prev : option N) (s : str) (cap : option str)
         (k : option N -> str -> option str -> option A) : option A :=
  match r with
  | Lit l => match_lit l prev s (fun p s' => k p s' cap)
  | Star c => match_star c prev s (fun p s' => k p s' cap)
  | Plus c =>
      match s with
      | t :: s' =>
          if in_class c t
          then match_star c (Some t) s' (fun p s'' => k p s'' cap)
          else None
      | [] => None
      end
  | Opt r1 =>
      match match_at r1 prev s cap k with
      | Some a => Some a
      | None => k prev s cap
      end
  | Alt r1 r2 =>
      match match_at r1 prev s cap k with
      | Some a => Some a
      | None => match_at r2 prev s cap k
      end
  | Seq r1 r2 =>
      match_at r1 prev s cap (fun p s' cap' => match_at r2 p s' cap' k)
  | Group r1 =>
      match_at r1 prev s cap
        (fun p s' _ => k p s' (Some (firstn (length s - length s') s)))
  | Bol => if at_bol prev then k prev s cap else None
  end.
End Matcher.

Section Api.
Variable db : unicode_db.
Variable fl : flags.

(** The first match at this position: group 1 and the match length. *)
Definition match_here (r : regex) (prev : option N) (s : str)
  : option (option str * nat) :=
  match_at db fl r prev s None
    (fun _ s' cap => Some (cap, (length s - length s')%nat)).

(** [re.search(pattern, text, flags)] as a truth value. *)
Fixpoint search_from (r : regex) (prev : option N) (s : str) : bool :=
  match match_here r prev s with
  | Some _ => true
  | None =>
      match s with
      | [] => false
      | t :: s' => search_from r (Some t) s'
      end
  end.

Definition search (r : regex) (s : str) : bool := search_from r None s.

(** [re.findall(pattern, text, flags)] for a pattern with one group:
    group 1 of every match, scanning left to right, the next search
    starting where the last match ended.  [skip] counts the characters
    of the last match still to be passed.  (No pattern of the scripts
    matches the empty string; after an empty match the scan moves on by
    one character.) *)
Fixpoint findall_from (r : regex) (skip : nat) (prev : option N) (s : str)
  : list str :=
  match skip, s with
  | S n, t :: s' => findall_from r n (Some t) s'
  | S n, [] => []
  | O, _ =>
      match match_here r prev s with
      | Some (cap, n) =>
          default [] cap ::
            match s with
            | [] => []
            | t :: s' => findall_from r (n - 1) (Some t) s'
            end
      | None =>
          match s with
          | [] => []
          | t :: s' => findall_from r 0 (Some t) s'
          end
      end
  end.

Definition findall (r : regex) (s : str) : list str :=
  findall_from r 0 None s.
End Api.

End re.

(* ===================================================================== *)
(** * JSON values and [json.dumps] *)
(* ===================================================================== *)

(** Python floats are IEEE 754 binary64 numbers. *)
Definition float := spec_float.
Definition prec : Z := 53.
Definition emax : Z := 1024.

(** The objects handed to [json.dumps]: [None], booleans, integers, floats,
    strings, lists, and dicts with string keys in insertion order. *)
Inductive json :=
| JNull
| JBool (b : bool)
| JInt (z : Z)
| JFloat (f : float)
| JStr (s : str)
| JList (items : list json)
| JDict (items : list (str * json)).

(** [str(n)] for an integer. *)
Definition digit_char (d : N) : N := (48 + d)%N.

Fixpoint digits_of_pos (fuel : nat) (n : N) (acc : str) : str :=
  match fuel with
  | O => acc
  | S fuel' =>
      let acc' := digit_char (n mod 10) :: acc in
      if (n <? 10)%N then acc' else digits_of_pos fuel' (n / 10) acc'
  end.

Definition str_of_N (n : N) : str := digits_of_pos (S (N.to_nat (N.log2 n))) n [].

Definition str_of_Z (z : Z) : str :=
  if z <? 0 then 45%N :: str_of_N (Z.to_N (- z)) else str_of_N (Z.to_N z).

Definition hex_char (d : N) : N :=
  if (d <? 10)%N then (48 + d)%N else (87 + d)%N.

(** ['\\u{0:04x}'.format(n)] *)
Definition u_escape (n : N) : str :=
  [92; 117]%N ++ [hex_char (n / 4096 mod 16); hex_char (n / 256 mod 16);
               hex_char (n / 16 mod 16); hex_char (n mod 16)].

(** One character under [ensure_ascii=True]. *)
Definition escape_char (c : N) : str :=
  if (c =? 34)%N then [92; 34]%N                 (* quote *)
  else if (c =? 92)%N then [92; 92]%N            (* backslash *)
  else if (c =? 10)%N then [92; 110]%N           (* \n *)
  else if (c =? 13)%N then [92; 114]%N           (* \r *)
  else if (c =? 9)%N then [92; 116]%N            (* \t *)
  else if (c =? 8)%N then [92; 98]%N             (* \b *)
  else if (c =? 12)%N then [92; 102]%N           (* \f *)
  else if in_range 32 126 c then [c]
  else if (c <? 65536)%N then u_escape c
  else let v := (c - 65536)%N in
       u_escape (55296 + (v / 1024) mod 1024) ++ u_escape (56320 + v mod 1024).

Definition encode_string (s : str) : str :=
  34%N :: flat_map escape_char s ++ [34%N].

Definition spaces (n : nat) : str := repeat 32%N n.

Section Dumps.
(** [float.__repr__] of a finite float: a parameter. *)
Variable float_repr : float -> str.

(** The encoder's [floatstr], with [allow_nan=True]. *)
Definition floatstr (f : float) : str :=
  match f with
  | S754_nan => lit "NaN"
  | S754_infinity false => lit "Infinity"
  | S754_infinity true => lit "-Infinity"
  | _ => float_repr f
  end.

(** [indent=None] or [indent=k]. *)
Variable indent : option nat.

Definition newline_indent (level : nat) : str :=
  match indent with
  | Some k => 10%N :: spaces (k * level)
  | None => []
  end.

Definition item_separator (level : nat) : str :=
  match indent with
  | Some _ => lit "," ++ newline_indent level
  | None => lit ", "
  end.

Fixpoint encode (level : nat) (j : json) : str :=
  match j with
  | JNull => lit "null"
  | JBool true => lit "true"
  | JBool false => lit "false"
  | JInt z => str_of_Z z
  | JFloat f => floatstr f
  | JStr s => encode_string s
  | JList [] => lit "[]"
  | JList items =>
      lit "[" ++ newline_indent (S level)
      ++ join (item_separator (S level)) (List.map (encode (S level)) items)
      ++ newline_indent level ++ lit "]"
  | JDict [] => lit "{}"
  | JDict items =>
      lit "{" ++ newline_indent (S level)
      ++ join (item_separator (S level))
           (List.map (fun kv => encode_string (fst kv) ++ lit ": "
                                ++ encode (S level) (snd kv)) items)
      ++ newline_indent level ++ lit "}"
  end.

Definition dumps (j : json) : str := encode O j.
End Dumps.

(** What one run of a script leaves behind. *)
Record outcome := {
  stdout : str;
  stderr : str;
  exit_code : Z
}.

(* ===================================================================== *)
(** * extract_api.py *)
(* ===================================================================== *)

Module ExtractApi.

(** One entry of the list that [extract_public_api] returns: the dict
    with keys [name], [type], [signature], [module], [line]. *)
Record symbol := {
  sym_name : str;
  sym_type : option str;
  sym_signature : option str;
  sym_module : str;
  sym_line : Z
}.

Definition lineno (n : ast.node) : Z :=
  match n with
  | ast.ClassDef _ _ l => l
  | ast.FunctionDef _ _ _ _ l => l
  | ast.AsyncFunctionDef _ _ _ _ l => l
  | ast.Assign _ _ l => l
  | ast.Expr _ l => l
  | ast.Other _ => 0
  end.

(** Lines 31-37: the string constants among the elements. *)
Definition string_elts (elts : list ast.expr) : list str :=
  flat_map (fun elt =>
              match elt with
              | ast.Constant (ast.CStr s) => [s]
              | _ => []
              end) elts.

(** Lines 26-37, one target of one [Assign] node. *)
Definition scan_target (value : ast.expr) (all_exports : option (list str))
           (target : ast.expr) : option (list str) :=
  match target with
  | ast.Name id =>
      if str_eqb id (lit "__all__") then
        match value with
        | ast.List elts => Some (string_elts elts)
        | ast.Tuple elts => Some (string_elts elts)
        | _ => all_exports
        end
      else all_exports
  | _ => all_exports
  end.

(** Lines 24-37, one node of the walk. *)
Definition scan_node (all_exports : option (list str)) (n : ast.node)
  : option (list str) :=
  match n with
  | ast.Assign targets value _ =>
      fold_left (scan_target value) targets all_exports
  | _ => all_exports
  end.

(** Lines 23-37: [all_exports] after the loop over [ast.walk(tree)]. *)
Definition find_all_exports (tree : ast.Module_) : option (list str) :=
  fold_left scan_node (ast.walk tree) None.

(** The three locals [name], [symbol_type], [signature] of the loop body. *)
Record locals := {
  name : option str;
  symbol_type : option str;
  signature : option str
}.

Section WithDb.
Variable db : unicode_db.

(** Lines 55-58, one target of an [Assign] statement. *)
Definition assign_target (st : locals) (target : ast.expr) : locals :=
  match target with
  | ast.Name id =>
      {| name := Some id;
         symbol_type :=
           Some (if isupper db id then lit "constant" else lit "variable");
         signature := signature st |}
  | _ => st
  end.

(** Lines 40-58: the locals once the [if]/[elif] chain is through. *)
Definition classify (n : ast.node) : locals :=
  let init := {| name := None; symbol_type := None; signature := None |} in
  match n with
  | ast.ClassDef nm _ _ =>
      {| name := Some nm;
         symbol_type := Some (lit "class");
         signature := Some (lit "class " ++ nm) |}
  | ast.FunctionDef nm a _ _ _ =>
      {| name := Some nm;
         symbol_type := Some (lit "function");
         signature :=
           Some (lit "def " ++ nm ++ lit "("
                 ++ join (lit ", ") (ast.args a) ++ lit ")") |}
  | ast.Assign targets _ _ => fold_left assign_target targets init
  | _ => init
  end.

(** Lines 61-71: what one top-level statement appends to [symbols]. *)
Definition emit (all_exports : option (list str)) (module_name : str)
           (n : ast.node) : list symbol :=
  let st := classify n in
  match name st with
  | Some nm =>
      if truthy nm && negb (startswith (lit "_") nm) then
        if match all_exports with
           | None => true
           | Some exports => str_in nm exports
           end
        then [ {| sym_name := nm;
                  sym_type := symbol_type st;
                  sym_signature := signature st;
                  sym_module := module_name;
                  sym_line := lineno n |} ]
        else []
      else []
  | None => []
  end.

(** Lines 19-73: the function after a successful parse. *)
Definition extract_from_tree (tree : ast.Module_) (filepath : str)
  : list symbol :=
  let module_name :=
    replace (lit "/") (lit ".") (replace (lit ".py") [] filepath) in
  let all_exports := find_all_exports tree in
  fold_left (fun symbols n => symbols ++ emit all_exports module_name n)
            (ast.body tree) [].

(** [ast.parse] is a parameter: the parser is not part of the script. *)
Variable ast_parse : str -> str -> ast.parsed.

(** Lines 12-73.  [None]: an exception of [ast.parse] other than
    [SyntaxError] propagates. *)
Definition extract_public_api (content filepath : str)
  : option (list symbol) :=
  match ast_parse content filepath with
  | ast.SyntaxError _ => Some []
  | ast.Tree tree => Some (extract_from_tree tree filepath)
  | ast.OtherException _ => None
  end.

Definition opt_json (o : option str) : json :=
  match o with Some s => JStr s | None => JNull end.

Definition symbol_json (s : symbol) : json :=
  JDict [ (lit "name", JStr (sym_name s));
          (lit "type", opt_json (sym_type s));
          (lit "signature", opt_json (sym_signature s));
          (lit "module", JStr (sym_module s));
          (lit "line", JInt (sym_line s)) ].

Variable float_repr : float -> str.

(** Lines 76-84.  [argv] is [sys.argv[1:]], [stdin] what
    [sys.stdin.read()] returns.  [None]: the process dies on the
    exception that [extract_public_api] let through. *)
Definition main (argv : list str) (stdin : str) : option outcome :=
  match argv with
  | [] => Some {| stdout := [];
                  stderr := lit "Usage: extract_api.py <filepath>" ++ [10%N];
                  exit_code := 1 |}
  | filepath :: _ =>
      match extract_public_api stdin filepath with
      | None => None
      | Some symbols =>
          Some {| stdout := dumps float_repr (Some 2%nat)
                                  (JList (List.map symbol_json symbols))
                            ++ [10%N];
                  stderr := [];
                  exit_code := 0 |}
      end
  end.
End WithDb.

End ExtractApi.


(* ===================================================================== *)
(** * validate_docstrings.py *)
(* ===================================================================== *)

Module ValidateDocstrings.

(** One entry of a function's [issues] list. *)
Record issue := {
  i_type : str;
  i_severity : str;
  i_description : str;
  i_line : Z
}.

(** One entry of [validations]. *)
Record validation := {
  v_name : str;
  v_line : Z;
  v_has_docstring : bool;
  v_param_count : Z;
  v_documented_params : list str;
  v_actual_params : list str;
  v_missing_params : list str;
  v_extra_params : list str;
  v_has_return_doc : bool;
  v_has_return_annotation : bool;
  v_issues : list issue;
  v_valid : bool
}.

(** What [validate_file] returns: [{"validations": ...}] or
    [{"error": ..., "validations": []}]. *)
Inductive result :=
| Validations (validations : list validation)
| Error (error : str).

(** [(?:Args?|Parameters?):\s*\n\s+(\w+)] *)
Definition google_pattern : re.regex :=
  re.Seq (re.Alt (re.Seq (re.Lit (lit "Arg")) (re.Opt (re.Lit (lit "s"))))
                 (re.Seq (re.Lit (lit "Parameter")) (re.Opt (re.Lit (lit "s")))))
    (re.Seq (re.Lit (lit ":"))
       (re.Seq (re.Star re.Space)
          (re.Seq (re.Lit [10%N])
             (re.Seq (re.Plus re.Space) (re.Group (re.Plus re.Word)))))).

(** [:param\s+(\w+):] *)
Definition sphinx_pattern : re.regex :=
  re.Seq (re.Lit (lit ":param"))
    (re.Seq (re.Plus re.Space)
       (re.Seq (re.Group (re.Plus re.Word)) (re.Lit (lit ":")))).

(** [^\s*(\w+)\s*:] *)
Definition numpy_pattern : re.regex :=
  re.Seq re.Bol
    (re.Seq (re.Star re.Space)
       (re.Seq (re.Group (re.Plus re.Word))
          (re.Seq (re.Star re.Space) (re.Lit (lit ":"))))).

(** [(?:Returns?|Yields?):] *)
Definition return_pattern : re.regex :=
  re.Seq (re.Alt (re.Seq (re.Lit (lit "Return")) (re.Opt (re.Lit (lit "s"))))
                 (re.Seq (re.Lit (lit "Yield")) (re.Opt (re.Lit (lit "s")))))
    (re.Lit (lit ":")).

Definition no_flags : re.flags :=
  {| re.IGNORECASE := false; re.MULTILINE := false |}.
Definition multiline : re.flags :=
  {| re.IGNORECASE := false; re.MULTILINE := true |}.
Definition ignorecase : re.flags :=
  {| re.IGNORECASE := true; re.MULTILINE := false |}.

Section WithRuntime.
Variable db : unicode_db.

(** [list(set(params))]: the elements of [params], each once, in the
    order in which this process iterates over the set.  For strings the
    order follows their hashes, which are salted anew for every process
    unless PYTHONHASHSEED is fixed; it is a parameter of the run. *)
Variable list_set : list str -> list str.

(** Lines 14-41.  [None] is Python's [None]. *)
Definition parse_docstring_params (docstring : option str) : list str :=
  match docstring with
  | None => []
  | Some doc =>
      if negb (truthy doc) then []
      else
        let params := [] in
        let google_match := re.findall db multiline google_pattern doc in
        let params := params ++ google_match in
        let sphinx_match := re.findall db no_flags sphinx_pattern doc in
        let params := params ++ sphinx_match in
        let numpy_match := re.findall db multiline numpy_pattern doc in
        let params := params ++ numpy_match in
        list_set params
  end.

(** Lines 44-48. *)
Definition has_return_doc (docstring : option str) : bool :=
  match docstring with
  | None => false
  | Some doc =>
      if negb (truthy doc) then false
      else re.search db ignorecase return_pattern doc
  end.

(** [inspect.cleandoc], which [ast.get_docstring] applies. *)
Variable cleandoc : str -> str.

(** Lines 66-148: the record appended for one [FunctionDef] node. *)
Definition validate_function (n : ast.node) : list validation :=
  match n with
  | ast.FunctionDef name args _ returns lineno =>
      let docstring := ast.get_docstring cleandoc n in
      let has_docstring := bool_decide (docstring <> None) in
      let actual_params :=
        List.filter (fun a => negb (str_in a [lit "self"; lit "cls"]))
                    (ast.args args) in
      let documented_params :=
        if has_docstring then parse_docstring_params docstring else [] in
      let missing_params :=
        List.filter (fun p => negb (str_in p documented_params))
                    actual_params in
      let extra_params :=
        List.filter (fun p => negb (str_in p actual_params))
                    documented_params in
      let has_return_annotation := bool_decide (returns <> None) in
      let has_return_doc_flag := has_return_doc docstring in
      let issues := [] in
      let issues :=
        if negb has_docstring then
          issues ++ [ {| i_type := lit "missing";
                         i_severity := lit "error";
                         i_description :=
                           lit "Function " ++ name ++ lit " has no docstring";
                         i_line := lineno |} ]
        else
          let issues :=
            if negb (Nat.eqb (length missing_params) 0) then
              issues ++ [ {| i_type := lit "incomplete";
                             i_severity := lit "warning";
                             i_description :=
                               lit "Missing documentation for parameters: "
                               ++ join (lit ", ") missing_params;
                             i_line := lineno |} ]
            else issues in
          let issues :=
            if negb (Nat.eqb (length extra_params) 0) then
              issues ++ [ {| i_type := lit "mismatch";
                             i_severity := lit "warning";
                             i_description :=
                               lit "Documented parameters not in signature: "
                               ++ join (lit ", ") extra_params;
                             i_line := lineno |} ]
            else issues in
          let issues :=
            if has_return_annotation && negb has_return_doc_flag then
              issues ++ [ {| i_type := lit "incomplete";
                             i_severity := lit "warning";
                             i_description :=
                               lit "Function has return annotation but no return documentation";
                             i_line := lineno |} ]
            else issues in
          issues in
      let valid := Nat.eqb (length issues) 0 in
      [ {| v_name := name;
           v_line := lineno;
           v_has_docstring := has_docstring;
           v_param_count := Z.of_nat (length actual_params);
           v_documented_params := documented_params;
           v_actual_params := actual_params;
           v_missing_params := missing_params;
           v_extra_params := extra_params;
           v_has_return_doc := has_return_doc_flag;
           v_has_return_annotation := has_return_annotation;
           v_issues := issues;
           v_valid := valid |} ]
  | _ => []
  end.

(** Lines 62-150: the function after a successful parse. *)
Definition validate_tree (tree : ast.Module_) : list validation :=
  fold_left (fun validations n => validations ++ validate_function n)
            (ast.walk tree) [].

Variable ast_parse : str -> str -> ast.parsed.
(** [open(filepath, "r", encoding="utf-8")] and [f.read()]: the text of
    the file, or [None] when the file cannot be opened or decoded. *)
Variable read_file : str -> option str.

(** Lines 51-150.  [None]: an exception propagates, that of [open] or
    [read], or one of [ast.parse] other than [SyntaxError]. *)
Definition validate_file (filepath : str) : option result :=
  match read_file filepath with
  | None => None
  | Some content =>
      match ast_parse content filepath with
      | ast.SyntaxError e =>
          Some (Error (lit "Syntax error in " ++ filepath ++ lit ": " ++ e))
      | ast.Tree tree => Some (Validations (validate_tree tree))
      | ast.OtherException _ => None
      end
  end.

Definition issue_json (i : issue) : json :=
  JDict [ (lit "type", JStr (i_type i));
          (lit "severity", JStr (i_severity i));
          (lit "description", JStr (i_description i));
          (lit "line", JInt (i_line i)) ].

Definition strs_json (l : list str) : json := JList (List.map JStr l).

Definition validation_json (v : validation) : json :=
  JDict [ (lit "name", JStr (v_name v));
          (lit "line", JInt (v_line v));
          (lit "has_docstring", JBool (v_has_docstring v));
          (lit "param_count", JInt (v_param_count v));
          (lit "documented_params", strs_json (v_documented_params v));
          (lit "actual_params", strs_json (v_actual_params v));
          (lit "missing_params", strs_json (v_missing_params v));
          (lit "extra_params", strs_json (v_extra_params v));
          (lit "has_return_doc", JBool (v_has_return_doc v));
          (lit "has_return_annotation", JBool (v_has_return_annotation v));
          (lit "issues", JList (List.map issue_json (v_issues v)));
          (lit "valid", JBool (v_valid v)) ].

Variable float_repr : float -> str.

(** Lines 153-165.  [argv] is [sys.argv[1:]].  [None]: the process dies
    on the exception that [validate_file] let through. *)
Definition main (argv : list str) : option outcome :=
  match argv with
  | [] =>
      Some {| stdout := [];
              stderr := lit "Usage: validate_docstrings.py <filepath>" ++ [10%N];
              exit_code := 1 |}
  | filepath :: _ =>
      match validate_file filepath with
      | None => None
      | Some (Error error) =>
          Some {| stdout := []; stderr := error ++ [10%N]; exit_code := 1 |}
      | Some (Validations validations) =>
          Some {| stdout :=
                    dumps float_repr (Some 2%nat)
                          (JList (List.map validation_json validations))
                    ++ [10%N];
                  stderr := [];
                  exit_code := 0 |}
      end
  end.
End WithRuntime.

End ValidateDocstrings.

(* ===================================================================== *)
(** * exit_criteria_checker.py *)
(* ===================================================================== *)

Module ExitCriteria.

(** The objects [json.loads] builds.  A dict is a finite map: the script
    only looks keys up. *)
Inductive pyobj :=
| PNone
| PBool (b : bool)
| PInt (z : Z)
| PFloat (f : float)
| PStr (s : str)
| PList (items : list pyobj)
| PDict (items : gmap str pyobj).

(** The exceptions that can reach the handler of [main], with [str(exc)]. *)
Inductive exception :=
| OverflowError (msg : str)
| ValueError (msg : str)
| JSONDecodeError (msg : str).

Definition exc_str (e : exception) : str :=
  match e with
  | OverflowError msg => msg
  | ValueError msg => msg
  | JSONDecodeError msg => msg
  end.

(** A computation that returns or raises. *)
Inductive res (A : Type) :=
| Ok (a : A)
| Raise (e : exception).
Arguments Ok {A} a.
Arguments Raise {A} e.

Definition bind {A B} (m : res A) (f : A -> res B) : res B :=
  match m with
  | Ok a => f a
  | Raise e => Raise e
  end.

Notation "'let*' x ':=' m 'in' k" := (bind m (fun x => k))
  (at level 10, x name, m at level 100, k at level 200).

(** [float(n)] for an integer: the nearest binary64 number, ties to
    even; an [OverflowError] when that is beyond the largest float. *)
Definition float_of_int (z : Z) : res float :=
  match binary_normalize prec emax z 0 false with
  | S754_infinity _ =>
      Raise (OverflowError (lit "int too large to convert to float"))
  | f => Ok f
  end.

(** Line 9. *)
Definition BRANCH_COVERAGE_THRESHOLD : float :=
  binary_normalize prec emax 70 0 false.

(** [x > y] and [x <= y] on floats. *)
Definition float_gt (x y : float) : bool := SFltb y x.
Definition float_le (x y : float) : bool := SFleb x y.

(** [x.is_integer()] and [int(x)] for such an [x]. *)
Definition int_of_float (f : float) : option Z :=
  match f with
  | S754_zero _ => Some 0
  | S754_finite sign m e =>
      let mag :=
        if 0 <=? e then Some (Z.pos m * 2 ^ e)
        else if Z.pos m mod 2 ^ (- e) =? 0 then Some (Z.pos m / 2 ^ (- e))
             else None in
      option_map (fun v => if sign then - v else v) mag
  | _ => None
  end.

(** [round(x)] for a float: the nearest integer, ties to even.  NaN and
    the infinities raise. *)
Definition round (f : float) : res Z :=
  match f with
  | S754_zero _ => Ok 0
  | S754_finite sign m e =>
      let mag :=
        if 0 <=? e then Z.pos m * 2 ^ e
        else
          let d := 2 ^ (- e) in
          let q := Z.pos m / d in
          let r := Z.pos m mod d in
          if 2 * r <? d then q
          else if d <? 2 * r then q + 1
               else if Z.even q then q else q + 1 in
      Ok (if sign then - mag else mag)
  | S754_infinity _ =>
      Raise (OverflowError (lit "cannot convert float infinity to integer"))
  | S754_nan =>
      Raise (ValueError (lit "cannot convert float NaN to integer"))
  end.

(** Line 141: [int(round((met_count / 4.0) * 100))]. *)
Definition percent_score (met_count : Z) : res Z :=
  let* count := float_of_int met_count in
  let four := binary_normalize prec emax 4 0 false in
  let* hundred := float_of_int 100 in
  round (SFmul prec emax (SFdiv prec emax count four) hundred).

(** Lines 56-61. *)
Record CriterionResult := {
  met : bool;
  value : json;
  threshold : json;
  reason : str
}.

(** One entry of [unmet]. *)
Record unmet_entry := {
  u_key : str;
  u_reason : str;
  u_value : json;
  u_threshold : json
}.

(** The dict that [evaluate] returns. *)
Record report := {
  ok : bool;
  decision : str;
  score : Z;
  thresholds : list (str * json);
  inputs : list (str * json);
  criteria : list (str * CriterionResult);
  unmet : list unmet_entry;
  summary : str
}.

Definition opt_bool_json (o : option bool) : json :=
  match o with Some b => JBool b | None => JNull end.
Definition opt_float_json (o : option float) : json :=
  match o with Some f => JFloat f | None => JNull end.
Definition opt_int_json (o : option Z) : json :=
  match o with Some z => JInt z | None => JNull end.

Section WithRuntime.
(** [str.lower], [float(s)] and [int(s)] on strings ([None]: a
    [ValueError]) are the runtime's. *)
Variable str_lower : str -> str.
Variable float_of_str : str -> option float.
Variable int_of_str : str -> option Z.
Variable float_repr : float -> str.
Variable json_loads : str -> res pyobj.

(** [payload.get(key)] *)
Definition get (payload : gmap str pyobj) (key : str) : pyobj :=
  default PNone (payload !! key).

(** Lines 12-23. *)
Definition _as_bool (value : pyobj) : option bool :=
  match value with
  | PNone => None
  | PBool b => Some b
  | PStr s =>
      let lowered := str_lower (strip s) in
      if str_in lowered [lit "true"; lit "yes"; lit "1"; lit "pass"; lit "passed"]
      then Some true
      else if str_in lowered [lit "false"; lit "no"; lit "0"; lit "fail"; lit "failed"]
           then Some false
           else None
  | _ => None
  end.

(** Lines 26-36.  A [bool] is an [int]. *)
Definition _as_float (value : pyobj) : res (option float) :=
  match value with
  | PNone => Ok None
  | PBool b => let* f := float_of_int (if b then 1 else 0) in Ok (Some f)
  | PInt z => let* f := float_of_int z in Ok (Some f)
  | PFloat f => Ok (Some f)
  | PStr s => Ok (float_of_str (strip s))
  | _ => Ok None
  end.

(** Lines 39-53. *)
Definition _as_int (value : pyobj) : option Z :=
  match value with
  | PNone => None
  | PBool _ => None
  | PInt z => Some z
  | PFloat f => int_of_float f
  | PStr s => int_of_str (strip s)
  | _ => None
  end.

Definition threshold_text : str :=
  lit "> " ++ float_repr BRANCH_COVERAGE_THRESHOLD.

(** Lines 64-174. *)
Definition evaluate (payload : gmap str pyobj) : res report :=
  let tests_passed := _as_bool (get payload (lit "tests_passed")) in
  let type_checks_passed := _as_bool (get payload (lit "type_checks_passed")) in
  let* branch_coverage := _as_float (get payload (lit "branch_coverage")) in
  let critical_issues_count :=
    _as_int (get payload (lit "critical_issues_count")) in
  let is_true (o : option bool) := bool_decide (o = Some true) in
  let tests_ok :=
    {| met := is_true tests_passed;
       value := opt_bool_json tests_passed;
       threshold := JBool true;
       reason := if negb (is_true tests_passed)
                 then lit "tests_passed must be true"
                 else lit "tests passed" |} in
  let coverage_ok :=
    {| met := match branch_coverage with
              | None => false
              | Some c => float_gt c BRANCH_COVERAGE_THRESHOLD
              end;
       value := opt_float_json branch_coverage;
       threshold := JStr threshold_text;
       reason := match branch_coverage with
                 | None => lit "branch_coverage must be provided"
                 | Some c =>
                     if float_le c BRANCH_COVERAGE_THRESHOLD
                     then lit "branch_coverage must be " ++ threshold_text
                     else lit "branch coverage above threshold"
                 end |} in
  let typecheck_ok :=
    {| met := is_true type_checks_passed;
       value := opt_bool_json type_checks_passed;
       threshold := JBool true;
       reason := if negb (is_true type_checks_passed)
                 then lit "type_checks_passed must be true"
                 else lit "type checks passed" |} in
  let critical_ok :=
    {| met := bool_decide (critical_issues_count = Some 0);
       value := opt_int_json critical_issues_count;
       threshold := JInt 0;
       reason := match critical_issues_count with
                 | None => lit "critical_issues_count must be provided"
                 | Some c =>
                     if c =? 0 then lit "no critical issues"
                     else lit "critical issues must be 0"
                 end |} in
  let criteria :=
    [ (lit "tests_passed", tests_ok);
      (lit "branch_coverage", coverage_ok);
      (lit "type_checks_passed", typecheck_ok);
      (lit "critical_issues_count", critical_ok) ] in
  let unmet :=
    List.map (fun kr => {| u_key := fst kr;
                           u_reason := reason (snd kr);
                           u_value := value (snd kr);
                           u_threshold := threshold (snd kr) |})
             (List.filter (fun kr => negb (met (snd kr))) criteria) in
  let met_count :=
    Z.of_nat (length (List.filter (fun kr => met (snd kr)) criteria)) in
  let* score := percent_score met_count in
  let decision := if met_count =? 4 then lit "approve" else lit "iterate" in
  let summary :=
    if str_eqb decision (lit "approve") then lit "Exit criteria met"
    else lit "Exit criteria NOT met" in
  Ok {| ok := true;
        decision := decision;
        score := score;
        thresholds :=
          [ (lit "branch_coverage", JStr threshold_text);
            (lit "tests_passed", JBool true);
            (lit "type_checks_passed", JBool true);
            (lit "critical_issues_count", JInt 0) ];
        inputs :=
          [ (lit "tests_passed", opt_bool_json tests_passed);
            (lit "branch_coverage", opt_float_json branch_coverage);
            (lit "type_checks_passed", opt_bool_json type_checks_passed);
            (lit "critical_issues_count", opt_int_json critical_issues_count) ];
        criteria := criteria;
        unmet := unmet;
        summary := summary |}.

Definition criterion_json (c : CriterionResult) : json :=
  JDict [ (lit "met", JBool (met c));
          (lit "value", value c);
          (lit "threshold", threshold c);
          (lit "reason", JStr (reason c)) ].

Definition unmet_json (u : unmet_entry) : json :=
  JDict [ (lit "key", JStr (u_key u));
          (lit "reason", JStr (u_reason u));
          (lit "value", u_value u);
          (lit "threshold", u_threshold u) ].

Definition report_json (r : report) : json :=
  JDict [ (lit "ok", JBool (ok r));
          (lit "decision", JStr (decision r));
          (lit "score", JInt (score r));
          (lit "thresholds", JDict (thresholds r));
          (lit "inputs", JDict (inputs r));
          (lit "criteria",
            JDict (List.map (fun kr => (fst kr, criterion_json (snd kr)))
                            (criteria r)));
          (lit "unmet", JList (List.map unmet_json (unmet r)));
          (lit "summary", JStr (summary r)) ].

Definition error_json (e : exception) : json :=
  JDict [ (lit "ok", JBool false); (lit "error", JStr (exc_str e)) ].

(** Lines 178-187: the body of the [try]. *)
Definition main_try (raw : str) : res report :=
  let* payload := (if truthy (strip raw) then json_loads raw
              else Ok (PDict ∅)) in
  match payload with
  | PDict items => evaluate items
  | _ => Raise (ValueError (lit "Input payload must be a JSON object"))
  end.

(** Lines 177-190.  [raw] is what [sys.stdin.read()] returns. *)
Definition main (raw : str) : outcome :=
  match main_try raw with
  | Ok result =>
      {| stdout := dumps float_repr None (report_json result) ++ [10%N];
         stderr := [];
         exit_code := 0 |}
  | Raise exc =>
      {| stdout := dumps float_repr None (error_json exc) ++ [10%N];
         stderr := [];
         exit_code := 0 |}
  end.
End WithRuntime.

End ExitCriteria.

(* ===================================================================== *)
(** * Names and inputs used in the statements *)
(* ===================================================================== *)

(** Line 20 of extract_api.py. *)
Definition module_name_of (filepath : str) : str :=
  replace (lit "/") (lit ".") (replace (lit ".py") [] filepath).

(** The parameter list [()]. *)
Definition no_arguments : ast.arguments :=
  {| ast.posonlyargs := []; ast.args := []; ast.vararg := None;
     ast.kwonlyargs := []; ast.kwarg := None |}.

(** The file
<<
__all__ = ["_private"]
def _private(): pass
def public(): pass
>>
*)
Definition allow_list_file : ast.Module_ :=
  {| ast.body :=
       [ ast.Assign [ast.Name (lit "__all__")]
                    (ast.List [ast.Constant (ast.CStr (lit "_private"))]) 1;
         ast.FunctionDef (lit "_private") no_arguments [ast.Other []] None 2;
         ast.FunctionDef (lit "public") no_arguments [ast.Other []] None 3 ] |}.

(** The file
<<
a = b = 1
>>
*)
Definition chained_assignment_file : ast.Module_ :=
  {| ast.body :=
       [ ast.Assign [ast.Name (lit "a"); ast.Name (lit "b")]
                    (ast.Constant ast.COther) 1 ] |}.

(** The file
<<
def ok():
    '''Do it.'''
>>
and the record that validation builds for its function. *)
Definition documented_file : ast.Module_ :=
  {| ast.body :=
       [ ast.FunctionDef (lit "ok") no_arguments
           [ast.Expr (ast.Constant (ast.CStr (lit "Do it."))) 2] None 1 ] |}.

Definition documented_record : ValidateDocstrings.validation :=
  {| ValidateDocstrings.v_name := lit "ok";
     ValidateDocstrings.v_line := 1;
     ValidateDocstrings.v_has_docstring := true;
     ValidateDocstrings.v_param_count := 0;
     ValidateDocstrings.v_documented_params := [];
     ValidateDocstrings.v_actual_params := [];
     ValidateDocstrings.v_missing_params := [];
     ValidateDocstrings.v_extra_params := [];
     ValidateDocstrings.v_has_return_doc := false;
     ValidateDocstrings.v_has_return_annotation := false;
     ValidateDocstrings.v_issues := [];
     ValidateDocstrings.v_valid := true |}.

(** A parser that rejects every text, and a file system whose every file
    holds the text [def (:]. *)
Definition rejecting_parser (content filepath : str) : ast.parsed :=
  ast.SyntaxError (lit "invalid syntax (" ++ filepath ++ lit ", line 1)").

Definition broken_file (filepath : str) : option str := Some (lit "def (:").

(** The keys of [criteria], in insertion order. *)
Definition criteria_keys : list str :=
  [ lit "tests_passed"; lit "branch_coverage"; lit "type_checks_passed";
    lit "critical_issues_count" ].

(** Each criterion of a report with its [met] flag. *)
Definition met_flags (r : ExitCriteria.report) : list (str * bool) :=
  List.map (fun kr => (fst kr, ExitCriteria.met (snd kr)))
           (ExitCriteria.criteria r).

(** The number of criteria met. *)
Definition met_count (r : ExitCriteria.report) : Z :=
  Z.of_nat (length (List.filter snd (met_flags r))).

(** The payload [{"branch_coverage": 70}]. *)
Definition boundary_payload : gmap str ExitCriteria.pyobj :=
  {[ lit "branch_coverage" := ExitCriteria.PInt 70 ]}.

(** ** Containing a keyword, letters compared without case *)

(** Two characters that are equal, or the same letter in different case. *)
Definition same_ignoring_case (db : unicode_db) (p t : N) : bool :=
  if ascii_isupper p || ascii_islower p then ignorecase_eq db p t
  else (p =? t)%N.

(** [s] begins with [kw], case ignored. *)
Fixpoint ci_startswith (db : unicode_db) (kw s : str) : bool :=
  match kw, s with
  | [], _ => true
  | p :: kw', t :: s' => same_ignoring_case db p t && ci_startswith db kw' s'
  | _ :: _, [] => false
  end.

(** [kw] occurs somewhere in [s], case ignored. *)
Fixpoint ci_contains (db : unicode_db) (kw s : str) : bool :=
  ci_startswith db kw s
  || match s with
     | [] => false
     | _ :: s' => ci_contains db kw s'
     end.

(** [hasReturnSection] as the specification words it: one of the keywords,
    the trailing colon being optional. *)
Definition hasReturnSection_optional_colon (db : unicode_db) (doc : str) : bool :=
  existsb (fun kw => ci_contains db kw doc)
          [lit "Returns"; lit "Return"; lit "Yields"; lit "Yield"].

(** The same with the colon required. *)
Definition hasReturnSection_with_colon (db : unicode_db) (doc : str) : bool :=
  existsb (fun kw => ci_contains db kw doc)
          [lit "Returns:"; lit "Return:"; lit "Yields:"; lit "Yield:"].

(** The character before the position reached by matching the literal [l]
    at the start of [s]. *)
Fixpoint prev_after (l : str) (prev : option N) (s : str) : option N :=
  match l, s with
  | _ :: l', t :: s' => prev_after l' (Some t) s'
  | _, _ => prev
  end.

Definition matched {A} (o : option A) : bool :=
  match o with Some _ => true | None => false end.

(** ** The iteration order of a set *)

(** What the language promises about [list(set(xs))]: every element of
    [xs], once. *)
Definition set_order (list_set : list str -> list str) : Prop :=
  forall xs, List.NoDup (list_set xs)
             /\ (forall x, In x (list_set xs) <-> In x xs).

(** Two orders a process may iterate in. *)
Definition order_a (xs : list str) : list str :=
  nodup (fun a b : str => decide (a = b)) xs.






(** The file
<<
def f():
    ''':param x: first
:param y: second'''
>>
its text, its tree, and a parser and a file system that know this file
only. *)
Definition two_params_doc : str :=
  lit ":param x: first" ++ [10%N] ++ lit ":param y: second".


Definition two_params_file : ast.Module_ :=
  {| ast.body :=
       [ ast.FunctionDef (lit "f") no_arguments
           [ast.Expr (ast.Constant (ast.CStr two_params_doc)) 2] None 1 ] |}.



(** ** Inputs of the worked examples *)

(** The function
<<
def f(x, y):
    ''':param x: the first'''
>>
*)
Definition half_documented : ast.node :=
  ast.FunctionDef (lit "f")
    {| ast.posonlyargs := []; ast.args := [lit "x"; lit "y"];
       ast.vararg := None; ast.kwonlyargs := []; ast.kwarg := None |}
    [ast.Expr (ast.Constant (ast.CStr (lit ":param x: the first"))) 2]
    None 1.




(** The payload
    [{"tests_passed": true, "branch_coverage": 85,
      "type_checks_passed": true, "critical_issues_count": 0}]. *)
Definition passing_payload : gmap str ExitCriteria.pyobj :=
  <[ lit "tests_passed" := ExitCriteria.PBool true ]>
  (<[ lit "branch_coverage" := ExitCriteria.PInt 85 ]>
   (<[ lit "type_checks_passed" := ExitCriteria.PBool true ]>
    (<[ lit "critical_issues_count" := ExitCriteria.PInt 0 ]> ∅))).

(** The floats next to 70.0 on either side. *)
Definition just_above_threshold : float := S754_finite false 4925812092436481 (-46).
Definition just_below_threshold : float := S754_finite false 4925812092436479 (-46).

(* ===================================================================== *)
(** * Further names used in the statements *)
(* ===================================================================== *)

(** ** extract_api.py *)

(** A target that is the plain name [__all__]. *)
Definition is_all_target (target : ast.expr) : bool :=
  match target with
  | ast.Name id => str_eqb id (lit "__all__")
  | _ => false
  end.

(** The allow-list that one node of the tree sets, if it sets one: an
    assignment with a target named [__all__] and a list or tuple display as
    its value. *)
Definition exports_of (n : ast.node) : option (list str) :=
  match n with
  | ast.Assign targets value _ =>
      if existsb is_all_target targets then
        match value with
        | ast.List elts => Some (ExtractApi.string_elts elts)
        | ast.Tuple elts => Some (ExtractApi.string_elts elts)
        | _ => None
        end
      else None
  | _ => None
  end.

(** A name passes the visibility filter of lines 61-62. *)
Definition visible (all_exports : option (list str)) (nm : str) : bool :=
  truthy nm && negb (startswith (lit "_") nm)
  && match all_exports with
     | None => true
     | Some exports => str_in nm exports
     end.

(** The plain names among the targets of an assignment. *)
Definition name_targets (targets : list ast.expr) : list str :=
  flat_map (fun t => match t with ast.Name id => [id] | _ => [] end) targets.

(** The name that a top-level statement declares for the extraction: the
    name of a class or function, the last plain name among the targets of
    an assignment. *)
Definition declared_name (n : ast.node) : option str :=
  match n with
  | ast.ClassDef nm _ _ => Some nm
  | ast.FunctionDef nm _ _ _ _ => Some nm
  | ast.Assign targets _ _ => last (name_targets targets)
  | _ => None
  end.

(** The four kinds of symbol. *)
Definition symbol_kinds : list str :=
  [lit "class"; lit "function"; lit "constant"; lit "variable"].

(** The statements one level below those of the body of [tree], in the
    order in which [ast.walk] reaches them. *)
Definition child_level (tree : ast.Module_) : ast.Module_ :=
  {| ast.body := flat_map ast.iter_child_nodes (ast.body tree) |}.

(** The file
<<
def setup():
    __all__ = ['b']
__all__ = ['a']
>>
    in which the nested assignment comes first in the text. *)
Definition nested_allow_list_file : ast.Module_ :=
  {| ast.body :=
       [ ast.FunctionDef (lit "setup") no_arguments
           [ ast.Assign [ast.Name (lit "__all__")]
                        (ast.List [ast.Constant (ast.CStr (lit "b"))]) 2 ]
           None 1;
         ast.Assign [ast.Name (lit "__all__")]
                    (ast.List [ast.Constant (ast.CStr (lit "a"))]) 3 ] |}.

(** ** validate_docstrings.py *)

(** The types of the issues that carry a warning. *)
Definition warning_types : list str := [lit "incomplete"; lit "mismatch"].

(** The issue and the record of [def public(): pass], line 3 of the file
    [allow_list_file]. *)
Definition undocumented_issue : ValidateDocstrings.issue :=
  {| ValidateDocstrings.i_type := lit "missing";
     ValidateDocstrings.i_severity := lit "error";
     ValidateDocstrings.i_description := lit "Function public has no docstring";
     ValidateDocstrings.i_line := 3 |}.

Definition undocumented_record : ValidateDocstrings.validation :=
  {| ValidateDocstrings.v_name := lit "public";
     ValidateDocstrings.v_line := 3;
     ValidateDocstrings.v_has_docstring := false;
     ValidateDocstrings.v_param_count := 0;
     ValidateDocstrings.v_documented_params := [];
     ValidateDocstrings.v_actual_params := [];
     ValidateDocstrings.v_missing_params := [];
     ValidateDocstrings.v_extra_params := [];
     ValidateDocstrings.v_has_return_doc := false;
     ValidateDocstrings.v_has_return_annotation := false;
     ValidateDocstrings.v_issues := [undocumented_issue];
     ValidateDocstrings.v_valid := false |}.

(** The record of the function [half_documented]. *)
Definition half_documented_record : ValidateDocstrings.validation :=
  {| ValidateDocstrings.v_name := lit "f";
     ValidateDocstrings.v_line := 1;
     ValidateDocstrings.v_has_docstring := true;
     ValidateDocstrings.v_param_count := 2;
     ValidateDocstrings.v_documented_params := [lit "x"];
     ValidateDocstrings.v_actual_params := [lit "x"; lit "y"];
     ValidateDocstrings.v_missing_params := [lit "y"];
     ValidateDocstrings.v_extra_params := [];
     ValidateDocstrings.v_has_return_doc := false;
     ValidateDocstrings.v_has_return_annotation := false;
     ValidateDocstrings.v_issues :=
       [ {| ValidateDocstrings.i_type := lit "incomplete";
            ValidateDocstrings.i_severity := lit "warning";
            ValidateDocstrings.i_description :=
              lit "Missing documentation for parameters: y";
            ValidateDocstrings.i_line := 1 |} ];
     ValidateDocstrings.v_valid := false |}.

(** ** Patterns whose group is a run of word characters *)

(** Every capturing group of the pattern is [(\w+)]. *)
Fixpoint groups_are_words (r : re.regex) : bool :=
  match r with
  | re.Group (re.Plus re.Word) => true
  | re.Group _ => false
  | re.Opt r1 => groups_are_words r1
  | re.Alt r1 r2 => groups_are_words r1 && groups_are_words r2
  | re.Seq r1 r2 => groups_are_words r1 && groups_are_words r2
  | _ => true
  end.

(** Every match of the pattern goes through a capturing group. *)
Fixpoint binds_group (r : re.regex) : bool :=
  match r with
  | re.Group _ => true
  | re.Alt r1 r2 => binds_group r1 && binds_group r2
  | re.Seq r1 r2 => binds_group r1 || binds_group r2
  | _ => false
  end.

(** A non-empty string of word characters. *)
Definition is_word (db : unicode_db) (w : str) : bool :=
  truthy w && forallb (isword db) w.

(** A capture that is unset or a word. *)
Definition word_or_unset (db : unicode_db) (cap : option str) : bool :=
  match cap with
  | Some w => is_word db w
  | None => true
  end.

(** ** exit_criteria_checker.py *)

(** The line that [main] prints for an input that is JSON but no object:
    [{"ok": false, "error": "Input payload must be a JSON object"}]. *)
Definition not_an_object_line : str :=
  [123; 34]%N ++ lit "ok" ++ [34]%N ++ lit ": false, " ++ [34]%N ++ lit "error"
  ++ [34]%N ++ lit ": " ++ [34]%N ++ lit "Input payload must be a JSON object"
  ++ [34; 125; 10]%N.

(** The two reasons of the coverage criterion when a coverage is given. *)
Definition reason_above : str := lit "branch coverage above threshold".
Definition reason_below (float_repr : float -> str) : str :=
  lit "branch_coverage must be " ++ ExitCriteria.threshold_text float_repr.

(** The payload [{"branch_coverage": 70, "notes": null}]. *)
Definition annotated_payload : gmap str ExitCriteria.pyobj :=
  <[ lit "notes" := ExitCriteria.PNone ]> boundary_payload.

(** The entry of [unmet] for one criterion (lines 130-135). *)
Definition unmet_entry_of (kr : str * ExitCriteria.CriterionResult)
  : ExitCriteria.unmet_entry :=
  {| ExitCriteria.u_key := fst kr;
     ExitCriteria.u_reason := ExitCriteria.reason (snd kr);
     ExitCriteria.u_value := ExitCriteria.value (snd kr);
     ExitCriteria.u_threshold := ExitCriteria.threshold (snd kr) |}.

(** The coverage criterion agrees with the order of the integers at [z]:
    [float(z)] exists and is above the threshold exactly when [70 < z]. *)
Definition integer_coverage_agrees (z : Z) : bool :=
  match ExitCriteria.float_of_int z with
  | ExitCriteria.Ok f =>
      Bool.eqb (ExitCriteria.float_gt f ExitCriteria.BRANCH_COVERAGE_THRESHOLD)
               (70 <? z)
  | ExitCriteria.Raise _ => false
  end.

(** The integers from -1000 to 1000. *)
Definition small_integers : list Z :=
  List.map (fun n => Z.of_nat n - 1000) (seq 0 (Z.to_nat 2001)).

(** The payload [{"branch_coverage": 71}]. *)
Definition above_payload : gmap str ExitCriteria.pyobj :=
  {[ lit "branch_coverage" := ExitCriteria.PInt 71 ]}.

(** The payload [{"critical_issues_count": 0.0}]. *)
Definition float_zero_payload : gmap str ExitCriteria.pyobj :=
  {[ lit "critical_issues_count" := ExitCriteria.PFloat (S754_zero false) ]}.

(** ** Substrings *)

(** [w] occurs in [text] as a run of consecutive characters. *)
Definition substring (w text : str) : Prop :=
  exists before after, text = before ++ w ++ after.

(* ===================================================================== *)
(** * Theorems *)
(* ===================================================================== *)

(** ** Lists and loops *)

(** A [for] loop that appends to an accumulator is a [flat_map]. *)
Lemma fold_left_append {A B} (f : A -> list B) (l : list A) (acc : list B) :
  fold_left (fun acc x => acc ++ f x) l acc = acc ++ flat_map f l.
Proof.
  revert acc. induction l as [|x l IH]; intros acc; simpl.
  - now rewrite app_nil_r.
  - rewrite IH. now rewrite <- app_assoc.
Qed.

Lemma flat_map_filter_nil {A B} (f : A -> list B) (keep : A -> bool) (l : list A) :
  (forall x, keep x = false -> f x = []) ->
  flat_map f l = flat_map f (List.filter keep l).
Proof.
  intros Hdrop. induction l as [|x l IH]; simpl; [reflexivity|].
  destruct (keep x) eqn:E; simpl.
  - now rewrite IH.
  - now rewrite (Hdrop x E).
Qed.

Lemma str_eqb_eq (a b : str) : str_eqb a b = true <-> a = b.
Proof. unfold str_eqb. apply bool_decide_eq_true. Qed.

Lemma str_in_In (x : str) (xs : list str) : str_in x xs = true <-> In x xs.
Proof.
  unfold str_in. rewrite existsb_exists. split.
  - intros (y & Hy & E). apply str_eqb_eq in E. now subst.
  - intros H. exists x. split; [assumption|]. now apply str_eqb_eq.
Qed.

(** ** [ast.walk] reaches every node *)

Lemma size_children (n : ast.node) :
  ast.size n = S (ast.sizes (ast.iter_child_nodes n)).
Proof. destruct n; reflexivity. Qed.

Lemma sizes_app (l1 l2 : list ast.node) :
  ast.sizes (l1 ++ l2) = (ast.sizes l1 + ast.sizes l2)%nat.
Proof. unfold ast.sizes. now rewrite List.map_app, list_sum_app. Qed.

Lemma sizes_cons (n : ast.node) (l : list ast.node) :
  ast.sizes (n :: l) = (ast.size n + ast.sizes l)%nat.
Proof. reflexivity. Qed.

Lemma within_trans (a b c : ast.node) :
  ast.within a b -> ast.within b c -> ast.within a c.
Proof.
  intros Hab Hbc. induction Hbc as [|ch t Hin Hbc IH].
  - assumption.
  - eapply ast.within_child; eauto.
Qed.

Lemma walk_queue_spec (fuel : nat) :
  forall todo, (ast.sizes todo <= fuel)%nat ->
  forall n, In n (ast.walk_queue fuel todo) <->
            exists t, In t todo /\ ast.within n t.
Proof.
  induction fuel as [|fuel IH]; intros todo Hfuel n.
  - destruct todo as [|t rest].
    + simpl. split; [tauto|]. intros (t & [] & _).
    + rewrite sizes_cons, size_children in Hfuel. lia.
  - destruct todo as [|t rest].
    + simpl. split; [tauto|]. intros (t & [] & _).
    + simpl. rewrite IH.
      2:{ rewrite sizes_app. rewrite sizes_cons, size_children in Hfuel. lia. }
      split.
      * intros [<-|(c & Hc & Hw)].
        -- exists t. split; [now left | constructor].
        -- apply in_app_or in Hc. destruct Hc as [Hc|Hc].
           ++ exists c. split; [now right | assumption].
           ++ exists t. split; [now left|]. eapply ast.within_child; eauto.
      * intros (c & [<-|Hc] & Hw).
        -- inversion Hw as [|ch t' Hch Hw' ]; subst.
           ++ now left.
           ++ right. exists ch. split; [apply in_or_app; now right | assumption].
        -- right. exists c. split; [apply in_or_app; now left | assumption].
Qed.

Lemma walk_complete (tree : ast.Module_) (n : ast.node) :
  In n (ast.walk tree) <-> ast.occurs n tree.
Proof. unfold ast.walk, ast.occurs. apply walk_queue_spec. lia. Qed.

(** ** extract_api.py *)

Lemma extract_from_tree_flat_map db tree filepath :
  ExtractApi.extract_from_tree db tree filepath =
  flat_map (ExtractApi.emit db (ExtractApi.find_all_exports tree)
                            (module_name_of filepath))
           (ast.body tree).
Proof.
  unfold ExtractApi.extract_from_tree. now rewrite fold_left_append.
Qed.

(** Whatever the allow-list, an emitted symbol never starts with an
    underscore. *)
Lemma emit_never_underscore db all_exports module_name n s :
  In s (ExtractApi.emit db all_exports module_name n) ->
  startswith (lit "_") (ExtractApi.sym_name s) = false.
Proof.
  unfold ExtractApi.emit.
  destruct (ExtractApi.name (ExtractApi.classify db n)) as [nm|]; [|intros []].
  destruct (truthy nm && negb (startswith (lit "_") nm)) eqn:E; [|intros []].
  apply andb_true_iff in E. destruct E as [_ E]. apply negb_true_iff in E.
  destruct (match all_exports with None => true | Some e => str_in nm e end);
    [|intros []].
  intros [<-|[]]. exact E.
Qed.

Lemma extracted_never_underscore db tree filepath s :
  In s (ExtractApi.extract_from_tree db tree filepath) ->
  startswith (lit "_") (ExtractApi.sym_name s) = false.
Proof.
  rewrite extract_from_tree_flat_map, in_flat_map.
  intros (n & _ & Hs). eapply emit_never_underscore; eauto.
Qed.

(** C1.  The claim: a top-level definition whose name starts with an
    underscore and is listed in [__all__] is extracted.  The code: the
    allow-list of this file is read as [["_private"]], yet nothing is
    extracted, [_private] included: line 61 rejects every name with a
    leading underscore before the allow-list is looked at. *)
Theorem C1_allow_list_does_not_override_prefix (db : unicode_db) (filepath : str) :
  ExtractApi.find_all_exports allow_list_file = Some [lit "_private"]
  /\ ExtractApi.extract_from_tree db allow_list_file filepath = [].
Proof.
  split; [reflexivity|].
  rewrite extract_from_tree_flat_map.
  assert (E : ExtractApi.find_all_exports allow_list_file = Some [lit "_private"])
    by reflexivity.
  rewrite E. reflexivity.
Qed.

(** C5.  The claim: one record per target name of [a = b = 1].  The code:
    one record only, for the last target [b]; the loop of lines 54-58
    overwrites [name] and the record is appended after it. *)
Theorem C5_chained_assignment_last_target_only (db : unicode_db) :
  ExtractApi.extract_from_tree db chained_assignment_file (lit "m.py") =
  [ {| ExtractApi.sym_name := lit "b";
       ExtractApi.sym_type := Some (lit "variable");
       ExtractApi.sym_signature := None;
       ExtractApi.sym_module := lit "m";
       ExtractApi.sym_line := 1 |} ].
Proof. reflexivity. Qed.

(** C9 (extraction half).  Nothing is appended for a top-level
    [async def]. *)
Lemma emit_async db all_exports module_name nm a b r l :
  ExtractApi.emit db all_exports module_name (ast.AsyncFunctionDef nm a b r l) = [].
Proof. reflexivity. Qed.

(** ** validate_docstrings.py *)

Lemma validate_tree_flat_map db list_set cleandoc tree :
  ValidateDocstrings.validate_tree db list_set cleandoc tree =
  flat_map (ValidateDocstrings.validate_function db list_set cleandoc)
           (ast.walk tree).
Proof.
  unfold ValidateDocstrings.validate_tree. now rewrite fold_left_append.
Qed.

Lemma validate_function_valid db list_set cleandoc n v :
  In v (ValidateDocstrings.validate_function db list_set cleandoc n) ->
  ValidateDocstrings.v_valid v =
  Nat.eqb (length (ValidateDocstrings.v_issues v)) 0.
Proof. destruct n; simpl; try tauto. intros [<-|[]]. reflexivity. Qed.

(** C9.  [async def] is invisible to both analyses: the symbols are those
    of the top-level statements that are not async functions, the
    validations those of the walked nodes that are not async functions, and
    an async function node contributes nothing to either. *)
Theorem C9_async_functions_are_invisible
        (db : unicode_db) (list_set : list str -> list str)
        (cleandoc : str -> str) (tree : ast.Module_) (filepath : str) :
  ExtractApi.extract_from_tree db tree filepath =
    flat_map (ExtractApi.emit db (ExtractApi.find_all_exports tree)
                              (module_name_of filepath))
             (List.filter (fun n => negb (ast.is_AsyncFunctionDef n))
                          (ast.body tree))
  /\ ValidateDocstrings.validate_tree db list_set cleandoc tree =
       flat_map (ValidateDocstrings.validate_function db list_set cleandoc)
                (List.filter (fun n => negb (ast.is_AsyncFunctionDef n))
                             (ast.walk tree))
  /\ (forall all_exports nm a b r l,
        ExtractApi.emit db all_exports (module_name_of filepath)
                        (ast.AsyncFunctionDef nm a b r l) = [])
  /\ (forall nm a b r l,
        ValidateDocstrings.validate_function db list_set cleandoc
          (ast.AsyncFunctionDef nm a b r l) = []).
Proof.
  repeat split.
  - rewrite extract_from_tree_flat_map. apply flat_map_filter_nil.
    intros [] E; try discriminate E. apply emit_async.
  - rewrite validate_tree_flat_map. apply flat_map_filter_nil.
    intros [] E; try discriminate E. reflexivity.
Qed.

(** C2.  A function definition anywhere in the file that has no docstring
    gets one record, whose only issue is the [missing]/[error] one and whose
    [valid] flag is false. *)
Theorem C2_no_docstring_single_missing_issue
        (db : unicode_db) (list_set : list str -> list str)
        (cleandoc : str -> str) (tree : ast.Module_)
        (name : str) (args : ast.arguments) (body : list ast.node)
        (returns : option ast.expr) (lineno : Z) :
  ast.occurs (ast.FunctionDef name args body returns lineno) tree ->
  ast.get_docstring cleandoc (ast.FunctionDef name args body returns lineno) = None ->
  exists v,
    ValidateDocstrings.validate_function db list_set cleandoc
      (ast.FunctionDef name args body returns lineno) = [v]
    /\ In v (ValidateDocstrings.validate_tree db list_set cleandoc tree)
    /\ ValidateDocstrings.v_name v = name
    /\ ValidateDocstrings.v_has_docstring v = false
    /\ ValidateDocstrings.v_issues v =
         [ {| ValidateDocstrings.i_type := lit "missing";
              ValidateDocstrings.i_severity := lit "error";
              ValidateDocstrings.i_description :=
                lit "Function " ++ name ++ lit " has no docstring";
              ValidateDocstrings.i_line := lineno |} ]
    /\ ValidateDocstrings.v_valid v = false.
Proof.
  intros Hocc Hdoc. eexists. split.
  - unfold ValidateDocstrings.validate_function. rewrite Hdoc. reflexivity.
  - split.
    + rewrite validate_tree_flat_map. apply in_flat_map.
      eexists. split; [apply walk_complete; exact Hocc|].
      unfold ValidateDocstrings.validate_function. rewrite Hdoc. now left.
    + simpl. repeat split.
Qed.

Lemma C2_no_docstring_witness :
  ast.occurs (ast.FunctionDef (lit "public") no_arguments [ast.Other []] None 3)
             allow_list_file
  /\ exists v,
       ValidateDocstrings.validate_function ascii_only_db (fun l => l) (fun s => s)
         (ast.FunctionDef (lit "public") no_arguments [ast.Other []] None 3) = [v]
       /\ In v (ValidateDocstrings.validate_tree ascii_only_db (fun l => l)
                  (fun s => s) allow_list_file)
       /\ ValidateDocstrings.v_name v = lit "public"
       /\ ValidateDocstrings.v_has_docstring v = false
       /\ ValidateDocstrings.v_issues v =
            [ {| ValidateDocstrings.i_type := lit "missing";
                 ValidateDocstrings.i_severity := lit "error";
                 ValidateDocstrings.i_description :=
                   lit "Function " ++ lit "public" ++ lit " has no docstring";
                 ValidateDocstrings.i_line := 3 |} ]
       /\ ValidateDocstrings.v_valid v = false.
Proof.
  assert (Hocc : ast.occurs
                   (ast.FunctionDef (lit "public") no_arguments [ast.Other []] None 3)
                   allow_list_file).
  { eexists. split; [right; right; left; reflexivity | constructor]. }
  split; [exact Hocc|].
  apply (C2_no_docstring_single_missing_issue ascii_only_db (fun l => l)
           (fun s => s) allow_list_file (lit "public") no_arguments
           [ast.Other []] None 3 Hocc).
  reflexivity.
Defined.

(** C6.  In every record of the output, [valid] is true exactly when
    [issues] is empty. *)
Theorem C6_valid_iff_no_issues
        (db : unicode_db) (list_set : list str -> list str)
        (cleandoc : str -> str) (tree : ast.Module_)
        (v : ValidateDocstrings.validation) :
  In v (ValidateDocstrings.validate_tree db list_set cleandoc tree) ->
  (ValidateDocstrings.v_valid v = true <-> ValidateDocstrings.v_issues v = []).
Proof.
  rewrite validate_tree_flat_map, in_flat_map. intros (n & _ & Hv).
  rewrite (validate_function_valid _ _ _ _ _ Hv).
  destruct (ValidateDocstrings.v_issues v); simpl; split; congruence.
Qed.

Lemma C6_valid_iff_no_issues_witness :
  In documented_record
     (ValidateDocstrings.validate_tree ascii_only_db (fun l => l) (fun s => s)
        documented_file)
  /\ (ValidateDocstrings.v_valid documented_record = true <->
      ValidateDocstrings.v_issues documented_record = []).
Proof.
  assert (H : In documented_record
                (ValidateDocstrings.validate_tree ascii_only_db (fun l => l)
                   (fun s => s) documented_file)).
  { left. reflexivity. }
  split; [exact H|].
  exact (C6_valid_iff_no_issues ascii_only_db (fun l => l) (fun s => s)
           documented_file documented_record H).
Defined.

(** C8.  When the parser raises a syntax error, [extract_public_api]
    returns the empty list (and the script prints an empty JSON array and
    exits with 0), while [validate_file] returns the error and the script
    writes it to standard error, prints nothing and exits with 1. *)
Theorem C8_syntax_error_handling
        (db : unicode_db) (list_set : list str -> list str)
        (cleandoc : str -> str) (float_repr : float -> str)
        (ast_parse : str -> str -> ast.parsed) (read_file : str -> option str)
        (content filepath msg : str) :
  ast_parse content filepath = ast.SyntaxError msg ->
  read_file filepath = Some content ->
  ExtractApi.extract_public_api db ast_parse content filepath = Some []
  /\ ExtractApi.main db ast_parse float_repr [filepath] content =
       Some {| stdout := lit "[]" ++ [10%N]; stderr := []; exit_code := 0 |}
  /\ ValidateDocstrings.validate_file db list_set cleandoc ast_parse read_file
       filepath =
       Some (ValidateDocstrings.Error
               (lit "Syntax error in " ++ filepath ++ lit ": " ++ msg))
  /\ ValidateDocstrings.main db list_set cleandoc ast_parse read_file
       float_repr [filepath] =
       Some {| stdout := [];
               stderr := (lit "Syntax error in " ++ filepath ++ lit ": " ++ msg)
                         ++ [10%N];
               exit_code := 1 |}.
Proof.
  intros Hparse Hread.
  assert (E1 : ExtractApi.extract_public_api db ast_parse content filepath
               = Some []).
  { unfold ExtractApi.extract_public_api. now rewrite Hparse. }
  assert (E2 : ValidateDocstrings.validate_file db list_set cleandoc ast_parse
                 read_file filepath =
               Some (ValidateDocstrings.Error
                       (lit "Syntax error in " ++ filepath ++ lit ": " ++ msg))).
  { unfold ValidateDocstrings.validate_file. now rewrite Hread, Hparse. }
  repeat split.
  - exact E1.
  - unfold ExtractApi.main. rewrite E1. reflexivity.
  - exact E2.
  - unfold ValidateDocstrings.main. rewrite E2. reflexivity.
Qed.

Lemma C8_syntax_error_witness :
  ExtractApi.extract_public_api ascii_only_db rejecting_parser
    (lit "def (:") (lit "m.py") = Some []
  /\ ExtractApi.main ascii_only_db rejecting_parser (fun _ => [])
       [lit "m.py"] (lit "def (:") =
       Some {| stdout := lit "[]" ++ [10%N]; stderr := []; exit_code := 0 |}
  /\ ValidateDocstrings.validate_file ascii_only_db (fun l => l) (fun s => s)
       rejecting_parser broken_file (lit "m.py") =
       Some (ValidateDocstrings.Error
               (lit "Syntax error in " ++ lit "m.py" ++ lit ": "
                ++ lit "invalid syntax (m.py, line 1)"))
  /\ ValidateDocstrings.main ascii_only_db (fun l => l) (fun s => s)
       rejecting_parser broken_file (fun _ => []) [lit "m.py"] =
       Some {| stdout := [];
               stderr := (lit "Syntax error in " ++ lit "m.py" ++ lit ": "
                          ++ lit "invalid syntax (m.py, line 1)") ++ [10%N];
               exit_code := 1 |}.
Proof.
  apply (C8_syntax_error_handling ascii_only_db (fun l => l) (fun s => s)
           (fun _ => []) rejecting_parser broken_file
           (lit "def (:") (lit "m.py") (lit "invalid syntax (m.py, line 1)"));
    reflexivity.
Defined.

(** ** exit_criteria_checker.py *)

Lemma percent_score_exact (n : Z) :
  0 <= n <= 4 -> ExitCriteria.percent_score n = ExitCriteria.Ok (25 * n).
Proof.
  intros H.
  assert (C : n = 0 \/ n = 1 \/ n = 2 \/ n = 3 \/ n = 4) by lia.
  destruct C as [->|[->|[->|[->| ->]]]]; vm_compute; reflexivity.
Qed.

Lemma float_gt_threshold_irrefl :
  ExitCriteria.float_gt ExitCriteria.BRANCH_COVERAGE_THRESHOLD
                        ExitCriteria.BRANCH_COVERAGE_THRESHOLD = false.
Proof. vm_compute. reflexivity. Qed.

Lemma lstrip_whitespace (s : str) : forallb isspace s = true -> lstrip s = [].
Proof.
  induction s as [|c s IH]; simpl; [reflexivity|].
  intros H. apply andb_true_iff in H. destruct H as [Hc Hs].
  rewrite Hc. auto.
Qed.

Lemma strip_whitespace (s : str) : forallb isspace s = true -> strip s = [].
Proof.
  intros H. unfold strip. rewrite (lstrip_whitespace s H). reflexivity.
Qed.

Section Gate.
Variable str_lower : str -> str.
Variable float_of_str : str -> option float.
Variable int_of_str : str -> option Z.
Variable float_repr : float -> str.

(** What [evaluate] returns whenever the coverage converts to a float. *)
Lemma evaluate_returns (payload : gmap str ExitCriteria.pyobj)
      (bc : option float) :
  ExitCriteria._as_float float_of_str
    (ExitCriteria.get payload (lit "branch_coverage")) = ExitCriteria.Ok bc ->
  exists r,
    ExitCriteria.evaluate str_lower float_of_str int_of_str float_repr payload
    = ExitCriteria.Ok r
    /\ ExitCriteria.ok r = true
    /\ met_flags r =
         [ (lit "tests_passed",
            bool_decide (ExitCriteria._as_bool str_lower
              (ExitCriteria.get payload (lit "tests_passed")) = Some true));
           (lit "branch_coverage",
            match bc with
            | Some c => ExitCriteria.float_gt c ExitCriteria.BRANCH_COVERAGE_THRESHOLD
            | None => false
            end);
           (lit "type_checks_passed",
            bool_decide (ExitCriteria._as_bool str_lower
              (ExitCriteria.get payload (lit "type_checks_passed")) = Some true));
           (lit "critical_issues_count",
            bool_decide (ExitCriteria._as_int int_of_str
              (ExitCriteria.get payload (lit "critical_issues_count")) = Some 0)) ]
    /\ ExitCriteria.score r = 25 * met_count r
    /\ ExitCriteria.decision r =
         (if met_count r =? 4 then lit "approve" else lit "iterate")
    /\ List.map ExitCriteria.u_key (ExitCriteria.unmet r) =
         List.map fst (List.filter (fun kb => negb (snd kb)) (met_flags r)).
Proof.
  intros Hbc. unfold ExitCriteria.evaluate. rewrite Hbc.
  cbn [ExitCriteria.bind]. cbv zeta.
  destruct (bool_decide (ExitCriteria._as_bool str_lower
              (ExitCriteria.get payload (lit "tests_passed")) = Some true));
  destruct (match bc with
            | Some c => ExitCriteria.float_gt c ExitCriteria.BRANCH_COVERAGE_THRESHOLD
            | None => false
            end);
  destruct (bool_decide (ExitCriteria._as_bool str_lower
              (ExitCriteria.get payload (lit "type_checks_passed")) = Some true));
  destruct (bool_decide (ExitCriteria._as_int int_of_str
              (ExitCriteria.get payload (lit "critical_issues_count")) = Some 0));
  cbn [List.filter snd ExitCriteria.met negb length Z.of_nat];
  (rewrite percent_score_exact by (cbn; lia));
  cbn [ExitCriteria.bind];
  (eexists; split; [reflexivity|]);
  repeat split.
Qed.

End Gate.

Lemma filter_length_all {A} (f : A -> bool) (l : list A) :
  length (List.filter f l) = length l <-> forall x, In x l -> f x = true.
Proof.
  induction l as [|x l IH]; simpl.
  - split; [intros _ y [] | reflexivity].
  - pose proof (List.filter_length_le f l) as Hle.
    destruct (f x) eqn:E; simpl.
    + split.
      * intros H y [<-|Hy]; [exact E|]. apply IH; [lia | exact Hy].
      * intros H. f_equal. apply IH. intros y Hy. apply H. now right.
    + split.
      * intros H. lia.
      * intros H. specialize (H x (or_introl eq_refl)). congruence.
Qed.

Lemma met_count_all (flags : list (str * bool)) :
  length flags = 4%nat ->
  (Z.of_nat (length (List.filter snd flags)) = 4 <->
   forall k b, In (k, b) flags -> b = true).
Proof.
  intros Hlen.
  assert (E : Z.of_nat (length (List.filter snd flags)) = 4 <->
              length (List.filter snd flags) = length flags) by lia.
  rewrite E, filter_length_all. split.
  - intros H k b Hin. exact (H (k, b) Hin).
  - intros H [k b] Hin. exact (H k b Hin).
Qed.

(** C7.  The coverage criterion is met exactly when the coverage is a
    float strictly above 70.0, so a coverage of exactly 70.0 leaves it
    unmet; with the three other fields absent the decision is then
    [iterate] and the score 0.  The score is the exact percentage of the
    four criteria that are met (a multiple of 25, so rounding changes
    nothing), and the decision is [approve] exactly when all four are
    met. *)
Theorem C7_quality_gate_thresholds
        (str_lower : str -> str) (float_of_str : str -> option float)
        (int_of_str : str -> option Z) (float_repr : float -> str)
        (payload : gmap str ExitCriteria.pyobj) (bc : option float) :
  ExitCriteria._as_float float_of_str
    (ExitCriteria.get payload (lit "branch_coverage")) = ExitCriteria.Ok bc ->
  exists r,
    ExitCriteria.evaluate str_lower float_of_str int_of_str float_repr payload
    = ExitCriteria.Ok r
    /\ List.map fst (met_flags r) = criteria_keys
    /\ (forall b, In (lit "branch_coverage", b) (met_flags r) ->
          b = match bc with
              | Some c => ExitCriteria.float_gt c ExitCriteria.BRANCH_COVERAGE_THRESHOLD
              | None => false
              end)
    /\ (bc = Some ExitCriteria.BRANCH_COVERAGE_THRESHOLD ->
        In (lit "branch_coverage", false) (met_flags r))
    /\ (bc = Some ExitCriteria.BRANCH_COVERAGE_THRESHOLD ->
        ExitCriteria.get payload (lit "tests_passed") = ExitCriteria.PNone ->
        ExitCriteria.get payload (lit "type_checks_passed") = ExitCriteria.PNone ->
        ExitCriteria.get payload (lit "critical_issues_count") = ExitCriteria.PNone ->
        ExitCriteria.decision r = lit "iterate" /\ ExitCriteria.score r = 0)
    /\ 4 * ExitCriteria.score r = 100 * met_count r
    /\ (ExitCriteria.decision r = lit "approve" <->
        forall k b, In (k, b) (met_flags r) -> b = true)
    /\ (ExitCriteria.decision r = lit "approve"
        \/ ExitCriteria.decision r = lit "iterate").
Proof.
  intros Hbc.
  destruct (evaluate_returns str_lower float_of_str int_of_str float_repr
              payload bc Hbc)
    as (r & Hr & _ & Hflags & Hscore & Hdec & _).
  exists r. split; [exact Hr|].
  assert (Hlen : length (met_flags r) = 4%nat) by now rewrite Hflags.
  assert (Hall := met_count_all (met_flags r) Hlen). fold (met_count r) in Hall.
  split; [now rewrite Hflags|].
  split.
  { rewrite Hflags. intros b Hin.
    repeat (destruct Hin as [Hin|Hin];
            [first [now inversion Hin | discriminate Hin]|]).
    destruct Hin. }
  split.
  { intros ->. rewrite Hflags. right; left.
    now rewrite float_gt_threshold_irrefl. }
  split.
  { intros -> Htests Htypes Hcritical. rewrite Hdec, Hscore. unfold met_count.
    rewrite Hflags, Htests, Htypes, Hcritical, float_gt_threshold_irrefl.
    split; reflexivity. }
  split; [lia|].
  split.
  { rewrite Hdec. split.
    - destruct (met_count r =? 4) eqn:E; [|discriminate].
      intros _. apply Hall. lia.
    - intros H. apply Hall in H. apply Z.eqb_eq in H. now rewrite H. }
  rewrite Hdec. destruct (met_count r =? 4); [now left | now right].
Qed.

Lemma C7_quality_gate_witness :
  ExitCriteria._as_float (fun _ => None)
    (ExitCriteria.get boundary_payload (lit "branch_coverage"))
  = ExitCriteria.Ok (Some ExitCriteria.BRANCH_COVERAGE_THRESHOLD)
  /\ exists r,
       ExitCriteria.evaluate (fun s => s) (fun _ => None) (fun _ => None)
         (fun _ => lit "70.0") boundary_payload = ExitCriteria.Ok r
       /\ In (lit "branch_coverage", false) (met_flags r)
       /\ ExitCriteria.decision r = lit "iterate"
       /\ ExitCriteria.score r = 0.
Proof.
  assert (H : ExitCriteria._as_float (fun _ => None)
                (ExitCriteria.get boundary_payload (lit "branch_coverage"))
              = ExitCriteria.Ok (Some ExitCriteria.BRANCH_COVERAGE_THRESHOLD))
    by (vm_compute; reflexivity).
  split; [exact H|].
  destruct (C7_quality_gate_thresholds (fun s => s) (fun _ => None)
              (fun _ => None) (fun _ => lit "70.0") boundary_payload
              (Some ExitCriteria.BRANCH_COVERAGE_THRESHOLD) H)
    as (r & Hr & _ & _ & Hunmet & Hboundary & _).
  exists r. split; [exact Hr|]. split; [now apply Hunmet|].
  apply Hboundary; vm_compute; reflexivity.
Defined.

Lemma get_empty (key : str) :
  ExitCriteria.get ∅ key = ExitCriteria.PNone.
Proof. unfold ExitCriteria.get. now rewrite lookup_empty. Qed.

(** C10.  On empty or whitespace-only input [json.loads] is not called:
    the payload is the empty dict, and the script prints the report of
    [evaluate({})], with [ok] true, decision [iterate], score 0 and all four
    criteria unmet, and returns 0. *)
Theorem C10_blank_input_is_empty_object
        (str_lower : str -> str) (float_of_str : str -> option float)
        (int_of_str : str -> option Z) (float_repr : float -> str)
        (json_loads : str -> ExitCriteria.res ExitCriteria.pyobj) (raw : str) :
  forallb isspace raw = true ->
  exists r,
    ExitCriteria.evaluate str_lower float_of_str int_of_str float_repr ∅
    = ExitCriteria.Ok r
    /\ ExitCriteria.main str_lower float_of_str int_of_str float_repr
         json_loads raw =
         {| stdout := dumps float_repr None (ExitCriteria.report_json r) ++ [10%N];
            stderr := [];
            exit_code := 0 |}
    /\ ExitCriteria.ok r = true
    /\ ExitCriteria.decision r = lit "iterate"
    /\ ExitCriteria.score r = 0
    /\ met_flags r =
         [ (lit "tests_passed", false); (lit "branch_coverage", false);
           (lit "type_checks_passed", false);
           (lit "critical_issues_count", false) ]
    /\ List.map ExitCriteria.u_key (ExitCriteria.unmet r) = criteria_keys.
Proof.
  intros Hblank.
  assert (Hbc : ExitCriteria._as_float float_of_str
                  (ExitCriteria.get ∅ (lit "branch_coverage"))
                = ExitCriteria.Ok None) by now rewrite get_empty.
  destruct (evaluate_returns str_lower float_of_str int_of_str float_repr
              ∅ None Hbc)
    as (r & Hr & Hok & Hflags & Hscore & Hdec & Hunmet).
  rewrite !get_empty in Hflags. cbn in Hflags.
  exists r. split; [exact Hr|]. split.
  - unfold ExitCriteria.main, ExitCriteria.main_try.
    rewrite (strip_whitespace raw Hblank). cbn [truthy length Nat.eqb negb].
    cbn [ExitCriteria.bind]. rewrite Hr. reflexivity.
  - repeat split.
    + exact Hok.
    + rewrite Hdec. unfold met_count. now rewrite Hflags.
    + rewrite Hscore. unfold met_count. now rewrite Hflags.
    + exact Hflags.
    + rewrite Hunmet, Hflags. reflexivity.
Qed.

Lemma C10_blank_input_witness :
  forallb isspace [32; 9; 10]%N = true
  /\ exists r,
       ExitCriteria.main (fun s => s) (fun _ => None) (fun _ => None)
         (fun _ => lit "70.0")
         (fun _ => ExitCriteria.Raise (ExitCriteria.JSONDecodeError
                                         (lit "Expecting value")))
         [32; 9; 10]%N =
         {| stdout := dumps (fun _ => lit "70.0") None
                            (ExitCriteria.report_json r) ++ [10%N];
            stderr := [];
            exit_code := 0 |}
       /\ ExitCriteria.ok r = true
       /\ ExitCriteria.decision r = lit "iterate"
       /\ ExitCriteria.score r = 0.
Proof.
  assert (H : forallb isspace [32; 9; 10]%N = true) by reflexivity.
  split; [exact H|].
  destruct (C10_blank_input_is_empty_object (fun s => s) (fun _ => None)
              (fun _ => None) (fun _ => lit "70.0")
              (fun _ => ExitCriteria.Raise (ExitCriteria.JSONDecodeError
                                              (lit "Expecting value")))
              [32; 9; 10]%N H)
    as (r & _ & Hmain & Hok & Hdec & Hscore & _).
  exists r. repeat split; assumption.
Defined.

(** ** The return pattern *)

(** Case analysis on every test [ci_startswith db _ _] and
    [ci_contains db _ _] of the goal. *)
Ltac case_keyword_tests db :=
  repeat match goal with
         | |- context [ci_startswith db ?a ?b] =>
             generalize (ci_startswith db a b); intros []
         end;
  repeat match goal with
         | |- context [ci_contains db ?a ?b] =>
             generalize (ci_contains db a b); intros []
         end.

Lemma char_match_ignorecase db p t :
  re.char_match db ValidateDocstrings.ignorecase p t = same_ignoring_case db p t.
Proof. reflexivity. Qed.

Lemma match_lit_startswith {A} db (l : str) :
  forall prev s (k : option N -> str -> option A),
    re.match_lit db ValidateDocstrings.ignorecase l prev s k =
    if ci_startswith db l s then k (prev_after l prev s) (skipn (length l) s)
    else None.
Proof.
  induction l as [|p l IH]; intros prev s k; simpl.
  - reflexivity.
  - destruct s as [|t s]; [reflexivity|].
    rewrite char_match_ignorecase.
    destruct (same_ignoring_case db p t); simpl; [apply IH | reflexivity].
Qed.

Lemma ci_startswith_app db (a b s : str) :
  ci_startswith db (a ++ b) s =
  ci_startswith db a s && ci_startswith db b (skipn (length a) s).
Proof.
  revert s. induction a as [|p a IH]; intros s; simpl.
  - reflexivity.
  - destruct s as [|t s]; [reflexivity|].
    rewrite IH. now rewrite andb_assoc.
Qed.

Lemma match_here_return db prev s :
  matched (re.match_here db ValidateDocstrings.ignorecase
             ValidateDocstrings.return_pattern prev s) =
  existsb (fun kw => ci_startswith db kw s)
          [lit "Returns:"; lit "Return:"; lit "Yields:"; lit "Yield:"].
Proof.
  change (lit "Returns:") with (lit "Return" ++ lit "s" ++ lit ":").
  change (lit "Return:") with (lit "Return" ++ lit ":").
  change (lit "Yields:") with (lit "Yield" ++ lit "s" ++ lit ":").
  change (lit "Yield:") with (lit "Yield" ++ lit ":").
  cbn [existsb]. rewrite !ci_startswith_app.
  unfold re.match_here, ValidateDocstrings.return_pattern.
  cbn [re.match_at]. rewrite !match_lit_startswith.
  destruct (ci_startswith db (lit "Return") s);
    destruct (ci_startswith db (lit "Yield") s);
    cbn [andb orb];
    rewrite ?match_lit_startswith;
    case_keyword_tests db; reflexivity.
Qed.

Lemma search_from_step db fl r prev (s : str) :
  re.search_from db fl r prev s =
  matched (re.match_here db fl r prev s)
  || match s with
     | [] => false
     | t :: s' => re.search_from db fl r (Some t) s'
     end.
Proof. destruct s; simpl; destruct (re.match_here db fl r prev _); reflexivity. Qed.

Lemma ci_contains_step db kw (s : str) :
  ci_contains db kw s =
  ci_startswith db kw s
  || match s with
     | [] => false
     | _ :: s' => ci_contains db kw s'
     end.
Proof. destruct s; reflexivity. Qed.

Lemma search_return db (s : str) :
  forall prev,
    re.search_from db ValidateDocstrings.ignorecase
      ValidateDocstrings.return_pattern prev s =
    hasReturnSection_with_colon db s.
Proof.
  unfold hasReturnSection_with_colon.
  induction s as [|t s IH]; intros prev;
    rewrite search_from_step, match_here_return;
    cbn [existsb]; rewrite !(ci_contains_step db _ (_ :: _)) || rewrite !(ci_contains_step db _ []).
  - case_keyword_tests db; reflexivity.
  - rewrite IH. cbn [existsb]. case_keyword_tests db; reflexivity.
Qed.

(** C4, as amended.  [has_return_doc] holds exactly of the docstrings that
    contain [Returns:], [Return:], [Yields:] or [Yield:], letters compared
    without case: the colon is part of the pattern. *)
Theorem C4_return_section_requires_colon (db : unicode_db) (docstring : option str) :
  ValidateDocstrings.has_return_doc db docstring =
  match docstring with
  | None => false
  | Some doc => hasReturnSection_with_colon db doc
  end.
Proof.
  destruct docstring as [doc|]; [|reflexivity].
  unfold ValidateDocstrings.has_return_doc.
  destruct doc as [|t doc]; [reflexivity|].
  cbn [truthy length Nat.eqb negb]. apply search_return.
Qed.

(** C4, as claimed, fails: the docstring [Returns the sum.] holds the bare
    keyword, and is reported as having no return documentation. *)
Lemma C4_bare_keyword_counterexample :
  hasReturnSection_optional_colon ascii_only_db (lit "Returns the sum.") = true
  /\ ValidateDocstrings.has_return_doc ascii_only_db
       (Some (lit "Returns the sum.")) = false.
Proof. split; reflexivity. Qed.


(** ** Runs with different set orders *)

Lemma order_a_set_order : set_order order_a.
Proof.
  intros xs. split; [apply List.NoDup_nodup | intros x; apply List.nodup_In].
Qed.














(** ** Worked examples *)

(** A docstring that documents [x] of the parameters [(x, y)]: one
    [incomplete] warning that names [y]. *)
Example half_documented_function :
  List.map (fun v => (ValidateDocstrings.v_issues v, ValidateDocstrings.v_valid v))
    (ValidateDocstrings.validate_function ascii_only_db order_a (fun s => s)
       half_documented) =
  [ ([ {| ValidateDocstrings.i_type := lit "incomplete";
          ValidateDocstrings.i_severity := lit "warning";
          ValidateDocstrings.i_description :=
            lit "Missing documentation for parameters: y";
          ValidateDocstrings.i_line := 1 |} ], false) ].
Proof. reflexivity. Qed.

(** All four criteria met: [approve], score 100, nothing unmet. *)
Example passing_payload_approved :
  exists r,
    ExitCriteria.evaluate (fun s => s) (fun _ => None) (fun _ => None)
      (fun _ => lit "70.0") passing_payload = ExitCriteria.Ok r
    /\ ExitCriteria.decision r = lit "approve"
    /\ ExitCriteria.score r = 100
    /\ ExitCriteria.unmet r = [].
Proof. eexists. split; [vm_compute; reflexivity|]. repeat split. Qed.

(** The comparison with the threshold is strict, to the last bit. *)
Example threshold_neighbours :
  ExitCriteria.float_gt just_above_threshold ExitCriteria.BRANCH_COVERAGE_THRESHOLD = true
  /\ ExitCriteria.float_gt just_below_threshold ExitCriteria.BRANCH_COVERAGE_THRESHOLD = false
  /\ ExitCriteria.float_gt S754_nan ExitCriteria.BRANCH_COVERAGE_THRESHOLD = false
  /\ ExitCriteria.float_gt (S754_infinity false) ExitCriteria.BRANCH_COVERAGE_THRESHOLD = true.
Proof. repeat split. Qed.

(** ** extract_api.py: the allow-list *)

Lemma scan_targets_fold value targets acc :
  fold_left (ExtractApi.scan_target value) targets acc =
  if existsb is_all_target targets then
    match value with
    | ast.List elts => Some (ExtractApi.string_elts elts)
    | ast.Tuple elts => Some (ExtractApi.string_elts elts)
    | _ => acc
    end
  else acc.
Proof.
  revert acc. induction targets as [|t targets IH]; intros acc; simpl.
  - reflexivity.
  - rewrite IH.
    destruct t as [id| | | |]; simpl; try reflexivity.
    destruct (str_eqb id (lit "__all__")); simpl; [|reflexivity].
    destruct (existsb is_all_target targets); destruct value; reflexivity.
Qed.

Lemma scan_node_exports acc n :
  ExtractApi.scan_node acc n =
  match exports_of n with
  | Some l => Some l
  | None => acc
  end.
Proof.
  destruct n; try reflexivity. simpl. rewrite scan_targets_fold.
  destruct (existsb is_all_target targets); [|reflexivity].
  destruct value; reflexivity.
Qed.

Lemma scan_nodes_none nodes acc :
  (forall n, In n nodes -> exports_of n = None) ->
  fold_left ExtractApi.scan_node nodes acc = acc.
Proof.
  revert acc. induction nodes as [|n nodes IH]; intros acc H; simpl.
  - reflexivity.
  - rewrite scan_node_exports, (H n (or_introl eq_refl)).
    apply IH. intros m Hm. apply H. now right.
Qed.

Lemma scan_nodes_some nodes acc l :
  fold_left ExtractApi.scan_node nodes acc = Some l ->
  acc = Some l \/ exists n, In n nodes /\ exports_of n = Some l.
Proof.
  revert acc. induction nodes as [|n nodes IH]; intros acc; simpl.
  - now left.
  - intros H. apply IH in H. destruct H as [H|(m & Hm & E)].
    + rewrite scan_node_exports in H. destruct (exports_of n) eqn:E.
      * right. exists n. split; [now left | congruence].
      * now left.
    + right. exists m. split; [now right | assumption].
Qed.

(** X1.  An allow-list is found exactly when some assignment of the tree,
    at the top level or nested at any depth, has a target named [__all__]
    and a list or tuple display as its value. *)
Theorem X1_allow_list_absent_iff (tree : ast.Module_) :
  ExtractApi.find_all_exports tree = None <->
  forall n, ast.occurs n tree -> exports_of n = None.
Proof.
  unfold ExtractApi.find_all_exports. split.
  - intros H n Hn. apply walk_complete in Hn.
    destruct (exports_of n) as [l|] eqn:E; [|reflexivity].
    apply in_split in Hn. destruct Hn as (pre & post & Hw).
    rewrite Hw, fold_left_app in H. simpl in H.
    rewrite scan_node_exports, E in H.
    destruct (fold_left ExtractApi.scan_node post (Some l)) as [l'|] eqn:F;
      [discriminate H|].
    clear -F. exfalso. revert l F. induction post as [|m post IH]; intros l F.
    + discriminate F.
    + simpl in F. rewrite scan_node_exports in F.
      destruct (exports_of m); eapply IH; exact F.
  - intros H. apply scan_nodes_none. intros n Hn. apply H.
    now apply walk_complete.
Qed.

Lemma scan_nodes_last nodes acc :
  fold_left ExtractApi.scan_node nodes acc =
  match last (omap exports_of nodes) with
  | Some l => Some l
  | None => acc
  end.
Proof.
  revert acc. induction nodes as [|n nodes IH]; intros acc; [reflexivity|].
  cbn [fold_left]. rewrite IH, scan_node_exports.
  change (omap exports_of (n :: nodes))
    with (match exports_of n with
          | Some l => l :: omap exports_of nodes
          | None => omap exports_of nodes
          end).
  destruct (exports_of n) as [l|]; [|reflexivity].
  rewrite last_cons. now destruct (last (omap exports_of nodes)).
Qed.

Lemma sizes_children (nodes : list ast.node) :
  ast.sizes nodes
  = (length nodes + ast.sizes (flat_map ast.iter_child_nodes nodes))%nat.
Proof.
  induction nodes as [|n nodes IH]; [reflexivity|].
  cbn [flat_map length]. rewrite sizes_cons, sizes_app, IH, size_children. lia.
Qed.

Lemma walk_queue_front (xs ys : list ast.node) (fuel : nat) :
  (length xs <= fuel)%nat ->
  ast.walk_queue fuel (xs ++ ys)
  = xs ++ ast.walk_queue (fuel - length xs)
            (ys ++ flat_map ast.iter_child_nodes xs).
Proof.
  revert ys fuel. induction xs as [|x xs IH]; intros ys fuel Hf.
  - cbn. now rewrite Nat.sub_0_r, app_nil_r.
  - destruct fuel as [|fuel]; [cbn in Hf; lia|].
    cbn [app ast.walk_queue length flat_map Nat.sub].
    rewrite <- app_assoc, IH by (cbn in Hf; lia).
    now rewrite <- app_assoc.
Qed.

Lemma walk_levels (tree : ast.Module_) :
  ast.walk tree = ast.body tree ++ ast.walk (child_level tree).
Proof.
  unfold ast.walk, child_level. cbn [ast.body].
  rewrite <- (app_nil_r (ast.body tree)) at 2.
  rewrite walk_queue_front by (rewrite sizes_children; lia).
  cbn [app]. f_equal. f_equal. rewrite sizes_children at 1. lia.
Qed.

(** X2.  [ast.walk] goes through the tree level by level: first the
    statements of the module body, then everything below them, again level
    by level.  So the allow-list is the one found below the top level when
    there is one, whatever the top level assigns and wherever the
    assignments stand in the text; otherwise it is that of the last
    top-level assignment to [__all__]. *)
Theorem X2_allow_list_deepest_level_wins (tree : ast.Module_) :
  ast.walk tree = ast.body tree ++ ast.walk (child_level tree)
  /\ ExtractApi.find_all_exports tree
     = match ExtractApi.find_all_exports (child_level tree) with
       | Some names => Some names
       | None => last (omap exports_of (ast.body tree))
       end.
Proof.
  split; [apply walk_levels|].
  unfold ExtractApi.find_all_exports.
  rewrite walk_levels, fold_left_app, !scan_nodes_last.
  destruct (last (omap exports_of (ast.walk (child_level tree))));
    [reflexivity|].
  now destruct (last (omap exports_of (ast.body tree))).
Qed.

(** The assignment in the body of [setup] comes first in the text and is
    reached last by the walk: it overrides the top-level one. *)
Example nested_allow_list_overrides :
  ExtractApi.find_all_exports nested_allow_list_file = Some [lit "b"]
  /\ last (omap exports_of (ast.body nested_allow_list_file)) = Some [lit "a"]
  /\ ExtractApi.find_all_exports (child_level nested_allow_list_file)
     = Some [lit "b"].
Proof. repeat split. Qed.

(** ** extract_api.py: the symbols *)

Lemma assign_targets_name db targets st :
  ExtractApi.name (fold_left (ExtractApi.assign_target db) targets st) =
  match last (name_targets targets) with
  | Some id => Some id
  | None => ExtractApi.name st
  end.
Proof.
  revert st. induction targets as [|t targets IH]; intros st; simpl.
  - reflexivity.
  - rewrite IH. destruct t as [id| | | |]; simpl; try reflexivity.
    destruct (name_targets targets) as [|x xs] eqn:E; [reflexivity|].
    simpl. change (match xs with [] => Some x | _ :: _ => last xs end)
      with (last (x :: xs)).
    destruct (last (x :: xs)) eqn:L; [reflexivity|].
    apply last_None in L. discriminate L.
Qed.

Lemma classify_name db n :
  ExtractApi.name (ExtractApi.classify db n) = declared_name n.
Proof.
  destruct n; try reflexivity. simpl. rewrite assign_targets_name.
  now destruct (last (name_targets targets)).
Qed.

(** The type and signature that an assignment leaves in the locals. *)
Lemma assign_targets_shape db targets st :
  ExtractApi.signature (fold_left (ExtractApi.assign_target db) targets st)
  = ExtractApi.signature st
  /\ ExtractApi.symbol_type (fold_left (ExtractApi.assign_target db) targets st)
     = match last (name_targets targets) with
       | Some id => Some (if isupper db id then lit "constant" else lit "variable")
       | None => ExtractApi.symbol_type st
       end.
Proof.
  revert st. induction targets as [|t targets IH]; intros st; simpl.
  - split; reflexivity.
  - destruct (IH (ExtractApi.assign_target db st t)) as [IHs IHt].
    rewrite IHs, IHt. destruct t as [id| | | |]; simpl; try (split; reflexivity).
    split; [reflexivity|].
    destruct (name_targets targets) as [|x xs] eqn:E; [reflexivity|].
    simpl. change (match xs with [] => Some x | _ :: _ => last xs end)
      with (last (x :: xs)).
    destruct (last (x :: xs)) eqn:L; [reflexivity|].
    apply last_None in L. discriminate L.
Qed.

(** What one top-level statement appends, in terms of its declared name. *)
Lemma emit_declared db all_exports module_name n :
  ExtractApi.emit db all_exports module_name n =
  match declared_name n with
  | Some nm =>
      if visible all_exports nm then
        [ {| ExtractApi.sym_name := nm;
             ExtractApi.sym_type := ExtractApi.symbol_type (ExtractApi.classify db n);
             ExtractApi.sym_signature := ExtractApi.signature (ExtractApi.classify db n);
             ExtractApi.sym_module := module_name;
             ExtractApi.sym_line := ExtractApi.lineno n |} ]
      else []
  | None => []
  end.
Proof.
  unfold ExtractApi.emit, visible. rewrite classify_name.
  destruct (declared_name n) as [nm|]; [|reflexivity].
  destruct (truthy nm && negb (startswith (lit "_") nm)); [|reflexivity].
  destruct all_exports as [l|]; simpl; [|reflexivity].
  now destruct (str_in nm l).
Qed.

(** X3.  Every extracted symbol is declared by a top-level statement, at
    that statement's line; its name is not empty, does not start with an
    underscore, and is listed in the allow-list when the tree sets one; its
    module is the dotted form of the path. *)
Theorem X3_extracted_symbols_are_visible
        (db : unicode_db) (tree : ast.Module_) (filepath : str)
        (s : ExtractApi.symbol) :
  In s (ExtractApi.extract_from_tree db tree filepath) ->
  (exists n, In n (ast.body tree)
             /\ declared_name n = Some (ExtractApi.sym_name s)
             /\ ExtractApi.lineno n = ExtractApi.sym_line s)
  /\ ExtractApi.sym_name s <> []
  /\ startswith (lit "_") (ExtractApi.sym_name s) = false
  /\ (forall l, ExtractApi.find_all_exports tree = Some l ->
                In (ExtractApi.sym_name s) l)
  /\ ExtractApi.sym_module s = module_name_of filepath.
Proof.
  rewrite extract_from_tree_flat_map, in_flat_map. intros (n & Hn & Hs).
  rewrite emit_declared in Hs.
  destruct (declared_name n) as [nm|] eqn:E; [|destruct Hs].
  destruct (visible (ExtractApi.find_all_exports tree) nm) eqn:V; [|destruct Hs].
  destruct Hs as [<-|[]]. simpl.
  unfold visible in V. apply andb_true_iff in V. destruct V as [V Hall].
  apply andb_true_iff in V. destruct V as [Htruthy Hpub].
  split; [exists n; auto|].
  split; [intros ->; discriminate Htruthy|].
  split; [now apply negb_true_iff|].
  split; [|reflexivity].
  intros l Hl. rewrite Hl in Hall. now apply str_in_In.
Qed.

Lemma X3_extracted_symbols_witness :
  (exists n, In n (ast.body chained_assignment_file)
             /\ declared_name n = Some (lit "b")
             /\ ExtractApi.lineno n = 1)
  /\ lit "b" <> []
  /\ startswith (lit "_") (lit "b") = false
  /\ (forall l, ExtractApi.find_all_exports chained_assignment_file = Some l ->
                In (lit "b") l)
  /\ lit "m" = module_name_of (lit "m.py").
Proof.
  apply (X3_extracted_symbols_are_visible ascii_only_db chained_assignment_file
           (lit "m.py")
           {| ExtractApi.sym_name := lit "b";
              ExtractApi.sym_type := Some (lit "variable");
              ExtractApi.sym_signature := None;
              ExtractApi.sym_module := lit "m";
              ExtractApi.sym_line := 1 |}).
  left. reflexivity.
Defined.

(** X4.  Conversely, every top-level statement whose declared name passes
    the filter (not empty, no leading underscore, listed in the allow-list
    when there is one) has its record in the output. *)
Theorem X4_visible_declarations_are_extracted
        (db : unicode_db) (tree : ast.Module_) (filepath : str)
        (n : ast.node) (nm : str) :
  In n (ast.body tree) ->
  declared_name n = Some nm ->
  visible (ExtractApi.find_all_exports tree) nm = true ->
  exists s, In s (ExtractApi.extract_from_tree db tree filepath)
            /\ ExtractApi.sym_name s = nm
            /\ ExtractApi.sym_line s = ExtractApi.lineno n
            /\ ExtractApi.sym_module s = module_name_of filepath.
Proof.
  intros Hn Hd Hv. eexists. split.
  - rewrite extract_from_tree_flat_map, in_flat_map. exists n.
    split; [exact Hn|]. rewrite emit_declared, Hd, Hv. now left.
  - repeat split.
Qed.

Lemma X4_visible_declarations_witness :
  exists s, In s (ExtractApi.extract_from_tree ascii_only_db
                    chained_assignment_file (lit "pkg/m.py"))
            /\ ExtractApi.sym_name s = lit "b"
            /\ ExtractApi.sym_line s = 1
            /\ ExtractApi.sym_module s = module_name_of (lit "pkg/m.py").
Proof.
  apply (X4_visible_declarations_are_extracted ascii_only_db
           chained_assignment_file (lit "pkg/m.py")
           (ast.Assign [ast.Name (lit "a"); ast.Name (lit "b")]
                       (ast.Constant ast.COther) 1) (lit "b")).
  - left. reflexivity.
  - reflexivity.
  - reflexivity.
Defined.

(** X5.  A record is of one of three shapes: a class with the signature
    [class NAME]; a function with the signature [def NAME(...)] listing the
    positional parameter names; a constant or a variable, as the name is
    upper case or not, with no signature. *)
Theorem X5_symbol_shapes
        (db : unicode_db) (tree : ast.Module_) (filepath : str)
        (s : ExtractApi.symbol) :
  In s (ExtractApi.extract_from_tree db tree filepath) ->
  (ExtractApi.sym_type s = Some (lit "class")
   /\ ExtractApi.sym_signature s = Some (lit "class " ++ ExtractApi.sym_name s))
  \/ (ExtractApi.sym_type s = Some (lit "function")
      /\ exists a body returns,
           In (ast.FunctionDef (ExtractApi.sym_name s) a body returns
                               (ExtractApi.sym_line s)) (ast.body tree)
           /\ ExtractApi.sym_signature s =
                Some (lit "def " ++ ExtractApi.sym_name s ++ lit "("
                      ++ join (lit ", ") (ast.args a) ++ lit ")"))
  \/ (ExtractApi.sym_type s =
        Some (if isupper db (ExtractApi.sym_name s)
              then lit "constant" else lit "variable")
      /\ ExtractApi.sym_signature s = None).
Proof.
  rewrite extract_from_tree_flat_map, in_flat_map. intros (n & Hn & Hs).
  rewrite emit_declared in Hs.
  destruct (declared_name n) as [nm|] eqn:E; [|destruct Hs].
  destruct (visible (ExtractApi.find_all_exports tree) nm); [|destruct Hs].
  destruct Hs as [<-|[]]. simpl.
  destruct n; try discriminate E; simpl in E.
  - injection E as <-. left. split; reflexivity.
  - injection E as <-. right; left. split; [reflexivity|].
    exists args, body, returns. split; [exact Hn | reflexivity].
  - right; right. simpl.
    destruct (assign_targets_shape db targets
                {| ExtractApi.name := None; ExtractApi.symbol_type := None;
                   ExtractApi.signature := None |}) as [Hsig Hty].
    rewrite Hsig, Hty, E. split; reflexivity.
Qed.

Lemma X5_symbol_shapes_witness :
  (Some (lit "function") = Some (lit "class")
   /\ Some (lit "def f()") = Some (lit "class " ++ lit "f"))
  \/ (Some (lit "function") = Some (lit "function")
      /\ exists a body returns,
           In (ast.FunctionDef (lit "f") a body returns 1)
              (ast.body two_params_file)
           /\ Some (lit "def f()") =
                Some (lit "def " ++ lit "f" ++ lit "("
                      ++ join (lit ", ") (ast.args a) ++ lit ")"))
  \/ (Some (lit "function") =
        Some (if isupper ascii_only_db (lit "f")
              then lit "constant" else lit "variable")
      /\ Some (lit "def f()") = None).
Proof.
  apply (X5_symbol_shapes ascii_only_db two_params_file (lit "m.py")
           {| ExtractApi.sym_name := lit "f";
              ExtractApi.sym_type := Some (lit "function");
              ExtractApi.sym_signature := Some (lit "def f()");
              ExtractApi.sym_module := lit "m";
              ExtractApi.sym_line := 1 |}).
  left. reflexivity.
Defined.

Lemma sublist_flat_map {A B} (f g : A -> list B) (l : list A) :
  (forall x, sublist (f x) (g x)) -> sublist (flat_map f l) (flat_map g l).
Proof.
  intros H. induction l as [|x l IH]; simpl.
  - constructor.
  - now apply sublist_app.
Qed.

(** X6.  The records come in document order, at most one for each
    top-level statement, and none for a statement nested in another: their
    names and lines are a subsequence of the names and lines that the
    top-level statements declare. *)
Theorem X6_document_order
        (db : unicode_db) (tree : ast.Module_) (filepath : str) :
  sublist
    (List.map (fun s => (ExtractApi.sym_name s, ExtractApi.sym_line s))
              (ExtractApi.extract_from_tree db tree filepath))
    (flat_map (fun n => match declared_name n with
                        | Some nm => [(nm, ExtractApi.lineno n)]
                        | None => []
                        end) (ast.body tree))
  /\ (length (ExtractApi.extract_from_tree db tree filepath)
      <= length (ast.body tree))%nat.
Proof.
  rewrite extract_from_tree_flat_map. split.
  - rewrite flat_map_concat_map, concat_map, map_map, <- flat_map_concat_map.
    apply sublist_flat_map. intros n. rewrite emit_declared.
    destruct (declared_name n) as [nm|]; [|constructor].
    destruct (visible _ nm); simpl; [reflexivity | apply sublist_nil_l].
  - induction (ast.body tree) as [|n l IH]; simpl; [lia|].
    rewrite length_app, emit_declared.
    destruct (declared_name n) as [nm|]; [|simpl; lia].
    destruct (visible _ nm); simpl; lia.
Qed.

(** ** extract_api.py: the module name *)

Lemma replace_single_absent (c : N) (new s : str) :
  ~ In c new -> ~ In c (replace [c] new s).
Proof.
  intros Hnew. unfold replace. induction s as [|x s IH]; simpl.
  - tauto.
  - destruct (c =? x)%N eqn:E; simpl.
    + intros H. apply in_app_or in H. tauto.
    + intros [H|H]; [|tauto]. subst x. now rewrite N.eqb_refl in E.
Qed.

(** X7.  The module name of a record never contains a slash. *)
Theorem X7_module_name_has_no_slash (filepath : str) :
  ~ In 47%N (module_name_of filepath).
Proof.
  unfold module_name_of. apply (replace_single_absent 47%N (lit ".")).
  intros [H|[]]. discriminate H.
Qed.

(** ** validate_docstrings.py: the records *)

(** X8.  The records are those of the function definitions of the tree,
    wherever they stand: at the top level, in a class, in another function
    or in a block; no other node has one. *)
Theorem X8_one_record_per_function
        (db : unicode_db) (list_set : list str -> list str)
        (cleandoc : str -> str) (tree : ast.Module_)
        (v : ValidateDocstrings.validation) :
  In v (ValidateDocstrings.validate_tree db list_set cleandoc tree) <->
  exists name args body returns lineno,
    ast.occurs (ast.FunctionDef name args body returns lineno) tree
    /\ ValidateDocstrings.validate_function db list_set cleandoc
         (ast.FunctionDef name args body returns lineno) = [v]
    /\ ValidateDocstrings.v_name v = name
    /\ ValidateDocstrings.v_line v = lineno
    /\ ValidateDocstrings.v_has_docstring v =
         bool_decide (ast.get_docstring cleandoc
                        (ast.FunctionDef name args body returns lineno) <> None)
    /\ ValidateDocstrings.v_has_return_annotation v =
         bool_decide (returns <> None).
Proof.
  rewrite validate_tree_flat_map, in_flat_map. split.
  - intros (n & Hn & Hv). apply walk_complete in Hn.
    destruct n; try (destruct Hv; fail).
    exists name, args, body, returns, lineno.
    destruct Hv as [<-|[]]. repeat split. exact Hn.
  - intros (name & args & body & returns & lineno & Hocc & Hv & _).
    eexists. split; [apply walk_complete; exact Hocc|].
    rewrite Hv. now left.
Qed.

Lemma filter_not_in_nil (D A : list str) :
  List.filter (fun p => negb (str_in p D)) A = [] <->
  forall p, In p A -> In p D.
Proof.
  induction A as [|a A IH]; simpl.
  - split; [intros _ p [] | reflexivity].
  - destruct (str_in a D) eqn:E; simpl.
    + rewrite IH. apply str_in_In in E. split.
      * intros H p [<-|Hp]; auto.
      * intros H p Hp. apply H. now right.
    + split; [discriminate|]. intros H.
      specialize (H a (or_introl eq_refl)). apply str_in_In in H. congruence.
Qed.

Lemma length_eqb_nil {A} (l : list A) : Nat.eqb (length l) 0 = true <-> l = [].
Proof. destruct l; simpl; split; congruence. Qed.

(** X9.  A record is valid exactly when the function has a docstring,
    every parameter (receivers apart) is documented, every documented name
    is a parameter, and a return annotation comes with return
    documentation. *)
Theorem X9_valid_characterised
        (db : unicode_db) (list_set : list str -> list str)
        (cleandoc : str -> str) (tree : ast.Module_)
        (v : ValidateDocstrings.validation) :
  In v (ValidateDocstrings.validate_tree db list_set cleandoc tree) ->
  (ValidateDocstrings.v_valid v = true <->
   ValidateDocstrings.v_has_docstring v = true
   /\ (forall p, In p (ValidateDocstrings.v_actual_params v) ->
                 In p (ValidateDocstrings.v_documented_params v))
   /\ (forall p, In p (ValidateDocstrings.v_documented_params v) ->
                 In p (ValidateDocstrings.v_actual_params v))
   /\ (ValidateDocstrings.v_has_return_annotation v = true ->
       ValidateDocstrings.v_has_return_doc v = true)).
Proof.
  rewrite validate_tree_flat_map, in_flat_map. intros (n & _ & Hv).
  destruct n; try (destruct Hv; fail). destruct Hv as [<-|[]].
  cbv zeta. cbn [ValidateDocstrings.v_valid ValidateDocstrings.v_has_docstring
                 ValidateDocstrings.v_actual_params
                 ValidateDocstrings.v_documented_params
                 ValidateDocstrings.v_has_return_annotation
                 ValidateDocstrings.v_has_return_doc].
  set (f := ast.FunctionDef name args body returns lineno).
  set (A := List.filter _ (ast.args args)).
  set (D := if bool_decide (ast.get_docstring cleandoc f <> None) then _ else _).
  rewrite <- (filter_not_in_nil D A), <- (filter_not_in_nil A D).
  destruct (bool_decide (ast.get_docstring cleandoc f <> None)); simpl.
  2:{ split; [discriminate | intros [H _]; discriminate H]. }
  destruct (List.filter (fun p => negb (str_in p D)) A) as [|m ms];
    destruct (List.filter (fun p => negb (str_in p A)) D) as [|e es];
    destruct (bool_decide (returns <> None));
    destruct (ValidateDocstrings.has_return_doc db (ast.get_docstring cleandoc f));
    simpl; split; try reflexivity; try discriminate;
    try (intros (_ & H1 & H2 & H3); first [discriminate H1 | discriminate H2
                                          | specialize (H3 eq_refl); discriminate H3]);
    intros _; repeat split; auto; discriminate.
Qed.

Lemma X9_valid_characterised_witness :
  ValidateDocstrings.v_valid documented_record = true <->
  ValidateDocstrings.v_has_docstring documented_record = true
  /\ (forall p, In p (ValidateDocstrings.v_actual_params documented_record) ->
                In p (ValidateDocstrings.v_documented_params documented_record))
  /\ (forall p, In p (ValidateDocstrings.v_documented_params documented_record) ->
                In p (ValidateDocstrings.v_actual_params documented_record))
  /\ (ValidateDocstrings.v_has_return_annotation documented_record = true ->
      ValidateDocstrings.v_has_return_doc documented_record = true).
Proof.
  apply (X9_valid_characterised ascii_only_db (fun l => l) (fun s => s)
           documented_file documented_record).
  left. reflexivity.
Defined.

(** X10.  Every issue of a record carries the line of its function.  A
    [missing] issue is an error and belongs to a function without
    docstring; the other issues ([incomplete], [mismatch]) are warnings and
    belong to a function with one.  A record has at most three issues. *)
Theorem X10_issue_severity_and_line
        (db : unicode_db) (list_set : list str -> list str)
        (cleandoc : str -> str) (tree : ast.Module_)
        (v : ValidateDocstrings.validation) (i : ValidateDocstrings.issue) :
  In v (ValidateDocstrings.validate_tree db list_set cleandoc tree) ->
  In i (ValidateDocstrings.v_issues v) ->
  ValidateDocstrings.i_line i = ValidateDocstrings.v_line v
  /\ (length (ValidateDocstrings.v_issues v) <= 3)%nat
  /\ ((ValidateDocstrings.i_type i = lit "missing"
       /\ ValidateDocstrings.i_severity i = lit "error"
       /\ ValidateDocstrings.v_has_docstring v = false)
      \/ (In (ValidateDocstrings.i_type i) warning_types
          /\ ValidateDocstrings.i_severity i = lit "warning"
          /\ ValidateDocstrings.v_has_docstring v = true)).
Proof.
  rewrite validate_tree_flat_map, in_flat_map. intros (n & _ & Hv).
  destruct n; try (destruct Hv; fail). destruct Hv as [<-|[]].
  cbv zeta. cbn [ValidateDocstrings.v_issues ValidateDocstrings.v_line
                 ValidateDocstrings.v_has_docstring].
  set (f := ast.FunctionDef name args body returns lineno).
  destruct (bool_decide (ast.get_docstring cleandoc f <> None)); cbn [negb].
  - destruct (negb (length (List.filter _ (List.filter _ (ast.args args))) =? 0)%nat);
      destruct (negb (length (List.filter _ _) =? 0)%nat);
      destruct (bool_decide (returns <> None) && _);
      cbn [app]; intros Hi;
      repeat (destruct Hi as [<-|Hi];
              [split; [reflexivity|]; split; [simpl; lia|]; right;
               split; [simpl; tauto|]; split; reflexivity|]);
      destruct Hi.
  - intros [<-|[]]. split; [reflexivity|]. split; [simpl; lia|]. left.
    repeat split.
Qed.

Lemma X10_issue_severity_witness :
  ValidateDocstrings.i_line undocumented_issue
  = ValidateDocstrings.v_line undocumented_record
  /\ (length (ValidateDocstrings.v_issues undocumented_record) <= 3)%nat
  /\ ((ValidateDocstrings.i_type undocumented_issue = lit "missing"
       /\ ValidateDocstrings.i_severity undocumented_issue = lit "error"
       /\ ValidateDocstrings.v_has_docstring undocumented_record = false)
      \/ (In (ValidateDocstrings.i_type undocumented_issue) warning_types
          /\ ValidateDocstrings.i_severity undocumented_issue = lit "warning"
          /\ ValidateDocstrings.v_has_docstring undocumented_record = true)).
Proof.
  apply (X10_issue_severity_and_line ascii_only_db (fun l => l) (fun s => s)
           allow_list_file undocumented_record undocumented_issue).
  - right. left. reflexivity.
  - left. reflexivity.
Defined.

Lemma filter_not_in_spec (D A : list str) (p : str) :
  In p (List.filter (fun q => negb (str_in q D)) A) <-> In p A /\ ~ In p D.
Proof.
  rewrite filter_In, negb_true_iff, <- not_true_iff_false, str_in_In. tauto.
Qed.

(** X11.  In every record the receivers [self] and [cls] are not among
    [actual_params], [param_count] is their number, [missing_params] are
    the actual parameters that are not documented, in signature order, and
    [extra_params] the documented names that are no parameter.  Without a
    docstring nothing is documented and every parameter is listed as
    missing. *)
Theorem X11_parameter_fields
        (db : unicode_db) (list_set : list str -> list str)
        (cleandoc : str -> str) (tree : ast.Module_)
        (v : ValidateDocstrings.validation) :
  In v (ValidateDocstrings.validate_tree db list_set cleandoc tree) ->
  ~ In (lit "self") (ValidateDocstrings.v_actual_params v)
  /\ ~ In (lit "cls") (ValidateDocstrings.v_actual_params v)
  /\ ValidateDocstrings.v_param_count v
     = Z.of_nat (length (ValidateDocstrings.v_actual_params v))
  /\ (forall p, In p (ValidateDocstrings.v_missing_params v) <->
                In p (ValidateDocstrings.v_actual_params v)
                /\ ~ In p (ValidateDocstrings.v_documented_params v))
  /\ sublist (ValidateDocstrings.v_missing_params v)
             (ValidateDocstrings.v_actual_params v)
  /\ (forall p, In p (ValidateDocstrings.v_extra_params v) <->
                In p (ValidateDocstrings.v_documented_params v)
                /\ ~ In p (ValidateDocstrings.v_actual_params v))
  /\ (ValidateDocstrings.v_has_docstring v = false ->
      ValidateDocstrings.v_documented_params v = []
      /\ ValidateDocstrings.v_missing_params v
         = ValidateDocstrings.v_actual_params v).
Proof.
  rewrite validate_tree_flat_map, in_flat_map. intros (n & _ & Hv).
  destruct n; try (destruct Hv; fail). destruct Hv as [<-|[]].
  cbv zeta. cbn [ValidateDocstrings.v_has_docstring
                 ValidateDocstrings.v_actual_params
                 ValidateDocstrings.v_documented_params
                 ValidateDocstrings.v_missing_params
                 ValidateDocstrings.v_extra_params
                 ValidateDocstrings.v_param_count].
  set (f := ast.FunctionDef name args body returns lineno).
  set (A := List.filter _ (ast.args args)).
  set (D := if bool_decide (ast.get_docstring cleandoc f <> None) then _ else _).
  assert (HA : forall p, In p A -> str_in p [lit "self"; lit "cls"] = false).
  { intros p Hp. apply filter_In in Hp. now apply negb_true_iff. }
  split; [intros H; apply HA in H; discriminate H|].
  split; [intros H; apply HA in H; discriminate H|].
  split; [reflexivity|].
  split; [intros p; apply filter_not_in_spec|].
  split.
  { clearbody A. clear. induction A as [|a A IH]; simpl; [constructor|].
    destruct (negb (str_in a D)); now constructor. }
  split; [intros p; apply filter_not_in_spec|].
  intros Hdoc. subst D. rewrite Hdoc. split; [reflexivity|].
  clearbody A. clear. induction A as [|a A IH]; [reflexivity|].
  change (a :: List.filter (fun p => negb (str_in p [])) A = a :: A).
  f_equal. exact IH.
Qed.

Lemma X11_parameter_fields_witness :
  ~ In (lit "self") (ValidateDocstrings.v_actual_params half_documented_record)
  /\ ~ In (lit "cls") (ValidateDocstrings.v_actual_params half_documented_record)
  /\ ValidateDocstrings.v_param_count half_documented_record
     = Z.of_nat (length (ValidateDocstrings.v_actual_params half_documented_record))
  /\ (forall p, In p (ValidateDocstrings.v_missing_params half_documented_record) <->
                In p (ValidateDocstrings.v_actual_params half_documented_record)
                /\ ~ In p (ValidateDocstrings.v_documented_params half_documented_record))
  /\ sublist (ValidateDocstrings.v_missing_params half_documented_record)
             (ValidateDocstrings.v_actual_params half_documented_record)
  /\ (forall p, In p (ValidateDocstrings.v_extra_params half_documented_record) <->
                In p (ValidateDocstrings.v_documented_params half_documented_record)
                /\ ~ In p (ValidateDocstrings.v_actual_params half_documented_record))
  /\ (ValidateDocstrings.v_has_docstring half_documented_record = false ->
      ValidateDocstrings.v_documented_params half_documented_record = []
      /\ ValidateDocstrings.v_missing_params half_documented_record
         = ValidateDocstrings.v_actual_params half_documented_record).
Proof.
  apply (X11_parameter_fields ascii_only_db order_a (fun s => s)
           {| ast.body := [half_documented] |} half_documented_record).
  left. reflexivity.
Defined.

(** ** validate_docstrings.py: the documented names *)

Lemma match_lit_continues {A} db fl (l : str) :
  forall prev s (k : option N -> str -> option A) a,
    re.match_lit db fl l prev s k = Some a ->
    exists p s', k p s' = Some a.
Proof.
  induction l as [|c l IH]; intros prev s k a; simpl.
  - eauto.
  - destruct s as [|t s]; [discriminate|].
    destruct (re.char_match db fl c t); [apply IH | discriminate].
Qed.

(** A greedy repetition passes a run of characters of the class. *)
Lemma match_star_run {A} db c (s : str) :
  forall prev (k : option N -> str -> option A) a,
    re.match_star db c prev s k = Some a ->
    exists n p, (n <= length s)%nat
                /\ forallb (re.in_class db c) (firstn n s) = true
                /\ k p (skipn n s) = Some a.
Proof.
  induction s as [|t s IH]; intros prev k a; simpl.
  - intros H. exists 0%nat, prev. auto.
  - destruct (re.in_class db c t) eqn:E.
    + destruct (re.match_star db c (Some t) s k) eqn:M.
      * intros [= <-]. apply IH in M. destruct M as (n & p & Hn & Hall & Hk).
        exists (S n), p. simpl. rewrite E, Hall. split; [lia|]. auto.
      * intros H. exists 0%nat, prev. simpl. split; [lia|]. auto.
    + intros H. exists 0%nat, prev. simpl. split; [lia|]. auto.
Qed.

Lemma match_plus_run {A} db fl c (s : str) prev cap
      (k : option N -> str -> option str -> option A) a :
  re.match_at db fl (re.Plus c) prev s cap k = Some a ->
  exists n p, (1 <= n <= length s)%nat
              /\ forallb (re.in_class db c) (firstn n s) = true
              /\ k p (skipn n s) cap = Some a.
Proof.
  simpl. destruct s as [|t s]; [discriminate|].
  destruct (re.in_class db c t) eqn:E; [|discriminate].
  intros M. apply match_star_run in M. destruct M as (n & p & Hn & Hall & Hk).
  exists (S n), p. simpl. rewrite E, Hall. split; [lia|]. auto.
Qed.

(** A match of a pattern whose groups are all [(\w+)] leaves the capture
    unset or a word, and sets it when the pattern binds the group. *)
Lemma match_at_capture {A} db fl (r : re.regex) :
  groups_are_words r = true ->
  forall prev s cap (k : option N -> str -> option str -> option A) a,
    re.match_at db fl r prev s cap k = Some a ->
    word_or_unset db cap = true ->
    exists p s' cap',
      word_or_unset db cap' = true
      /\ (binds_group r = true \/ cap <> None -> cap' <> None)
      /\ k p s' cap' = Some a.
Proof.
  assert (keep : forall cap : option str,
             false = true \/ cap <> None -> cap <> None).
  { intros cap [H|H]; [discriminate H | exact H]. }
  induction r as [l|c|c|r1 IH1|r1 IH1 r2 IH2|r1 IH1 r2 IH2|r1 _|];
    intros Hwf prev s cap k a M Hcap.
  - simpl in M. apply match_lit_continues in M. destruct M as (p & s' & Hk).
    exists p, s', cap. auto.
  - simpl in M. apply match_star_run in M. destruct M as (n & p & _ & _ & Hk).
    exists p, (skipn n s), cap. auto.
  - apply match_plus_run in M. destruct M as (n & p & _ & _ & Hk).
    exists p, (skipn n s), cap. auto.
  - simpl in M, Hwf. destruct (re.match_at db fl r1 prev s cap k) eqn:M1.
    + injection M as <-. destruct (IH1 Hwf _ _ _ _ _ M1 Hcap)
        as (p & s' & cap' & H1 & H2 & H3).
      exists p, s', cap'. split; [exact H1|]. split; [|exact H3].
      intros H. apply H2. right. now apply keep.
    + exists prev, s, cap. auto.
  - simpl in M, Hwf. apply andb_true_iff in Hwf. destruct Hwf as [W1 W2].
    destruct (re.match_at db fl r1 prev s cap k) eqn:M1.
    + injection M as <-. destruct (IH1 W1 _ _ _ _ _ M1 Hcap)
        as (p & s' & cap' & H1 & H2 & H3).
      exists p, s', cap'. split; [exact H1|]. split; [|exact H3].
      simpl. rewrite andb_true_iff. intros [[B _]|H]; apply H2; auto.
    + destruct (IH2 W2 _ _ _ _ _ M Hcap) as (p & s' & cap' & H1 & H2 & H3).
      exists p, s', cap'. split; [exact H1|]. split; [|exact H3].
      simpl. rewrite andb_true_iff. intros [[_ B]|H]; apply H2; auto.
  - simpl in M, Hwf. apply andb_true_iff in Hwf. destruct Hwf as [W1 W2].
    destruct (IH1 W1 _ _ _ _ _ M Hcap) as (p1 & s1 & cap1 & H1 & H2 & H3).
    destruct (IH2 W2 _ _ _ _ _ H3 H1) as (p & s' & cap' & H4 & H5 & H6).
    exists p, s', cap'. split; [exact H4|]. split; [|exact H6].
    simpl. rewrite orb_true_iff. intros [[B|B]|H]; apply H5; auto.
  - simpl in Hwf. destruct r1 as [| |c| | | | |]; try discriminate Hwf.
    destruct c; try discriminate Hwf.
    change (re.match_at db fl (re.Group (re.Plus re.Word)) prev s cap k)
      with (re.match_at db fl (re.Plus re.Word) prev s cap
              (fun p s' _ => k p s' (Some (firstn (length s - length s') s))))
      in M.
    apply match_plus_run in M. destruct M as (n & p & Hn & Hall & Hk).
    rewrite length_skipn in Hk.
    replace (length s - (length s - n))%nat with n in Hk by lia.
    exists p, (skipn n s), (Some (firstn n s)).
    split; [|split; [intros _; discriminate | exact Hk]].
    change (re.in_class db re.Word) with (isword db) in Hall.
    unfold word_or_unset, is_word. rewrite Hall, andb_true_r.
    unfold truthy. rewrite length_firstn.
    destruct (Nat.min n (length s)) eqn:E; [lia | reflexivity].
  - simpl in M. destruct (re.at_bol fl prev); [|discriminate].
    exists prev, s, cap. auto.
Qed.

Lemma match_here_word db fl (r : re.regex) prev (s : str) cap n :
  groups_are_words r = true -> binds_group r = true ->
  re.match_here db fl r prev s = Some (cap, n) ->
  is_word db (default [] cap) = true.
Proof.
  intros Hwf Hb M. unfold re.match_here in M.
  apply (match_at_capture db fl r Hwf) in M; [|reflexivity].
  destruct M as (p & s' & cap' & Hw & Hsome & [= <- _]).
  destruct cap' as [w|]; [exact Hw|]. exfalso. apply Hsome; auto.
Qed.

Lemma findall_from_words db fl (r : re.regex) :
  groups_are_words r = true -> binds_group r = true ->
  forall (s : str) skip prev w,
    In w (re.findall_from db fl r skip prev s) -> is_word db w = true.
Proof.
  intros Hwf Hb. induction s as [|t s IH]; intros skip prev w.
  - destruct skip; simpl; [|intros []].
    destruct (re.match_here db fl r prev []) as [[cap n]|] eqn:M; [|intros []].
    intros [<-|[]]. eapply match_here_word; eauto.
  - destruct skip; simpl; [|apply IH].
    destruct (re.match_here db fl r prev (t :: s)) as [[cap n]|] eqn:M;
      [|apply IH].
    intros [<-|H]; [eapply match_here_word; eauto | eapply IH; eauto].
Qed.

(** X12.  The documented names are non-empty runs of word characters
    (letters, digits, underscores), each listed once. *)
Theorem X12_documented_names_are_words
        (db : unicode_db) (list_set : list str -> list str)
        (docstring : option str) :
  set_order list_set ->
  List.NoDup (ValidateDocstrings.parse_docstring_params db list_set docstring)
  /\ forall p,
       In p (ValidateDocstrings.parse_docstring_params db list_set docstring) ->
       p <> [] /\ forallb (isword db) p = true.
Proof.
  intros Hset. unfold ValidateDocstrings.parse_docstring_params.
  destruct docstring as [doc|]; [|split; [constructor | intros p []]].
  destruct (negb (truthy doc)); [split; [constructor | intros p []]|].
  cbv zeta.
  match goal with
  | |- context [list_set ?params] => destruct (Hset params) as [Hnodup Hin]
  end.
  split; [exact Hnodup|].
  intros p Hp. apply Hin in Hp.
  assert (Hw : is_word db p = true).
  { rewrite !in_app_iff in Hp. destruct Hp as [[[[]|Hp]|Hp]|Hp];
      unfold re.findall in Hp;
      eapply findall_from_words in Hp; try exact Hp; reflexivity. }
  unfold is_word in Hw. apply andb_true_iff in Hw. destruct Hw as [Ht Hall].
  split; [intros ->; discriminate Ht | exact Hall].
Qed.

Lemma X12_documented_names_witness :
  List.NoDup (ValidateDocstrings.parse_docstring_params ascii_only_db order_a
                (Some two_params_doc))
  /\ forall p,
       In p (ValidateDocstrings.parse_docstring_params ascii_only_db order_a
               (Some two_params_doc)) ->
       p <> [] /\ forallb (isword ascii_only_db) p = true.
Proof.
  exact (X12_documented_names_are_words ascii_only_db order_a
           (Some two_params_doc) order_a_set_order).
Defined.

(** ** exit_criteria_checker.py: the payload *)

Section GatePayload.
Variable str_lower : str -> str.
Variable float_of_str : str -> option float.
Variable int_of_str : str -> option Z.
Variable float_repr : float -> str.

(** [evaluate] sees the payload through [get] only. *)
Lemma evaluate_ext (p1 p2 : gmap str ExitCriteria.pyobj) :
  (forall key, In key criteria_keys ->
               ExitCriteria.get p1 key = ExitCriteria.get p2 key) ->
  ExitCriteria.evaluate str_lower float_of_str int_of_str float_repr p1 =
  ExitCriteria.evaluate str_lower float_of_str int_of_str float_repr p2.
Proof.
  intros H. unfold ExitCriteria.evaluate.
  rewrite (H (lit "tests_passed")) by (simpl; tauto).
  rewrite (H (lit "branch_coverage")) by (simpl; tauto).
  rewrite (H (lit "type_checks_passed")) by (simpl; tauto).
  rewrite (H (lit "critical_issues_count")) by (simpl; tauto).
  reflexivity.
Qed.
End GatePayload.

(** X13.  Keys other than the four criteria are ignored: adding one to the
    payload, with any value, changes nothing in the result. *)
Theorem X13_unknown_keys_are_ignored
        (str_lower : str -> str) (float_of_str : str -> option float)
        (int_of_str : str -> option Z) (float_repr : float -> str)
        (payload : gmap str ExitCriteria.pyobj)
        (key : str) (v : ExitCriteria.pyobj) :
  ~ In key criteria_keys ->
  ExitCriteria.evaluate str_lower float_of_str int_of_str float_repr
    (<[ key := v ]> payload) =
  ExitCriteria.evaluate str_lower float_of_str int_of_str float_repr payload.
Proof.
  intros Hkey. apply evaluate_ext. intros k Hk. unfold ExitCriteria.get.
  rewrite lookup_insert_ne; [reflexivity|]. intros ->. contradiction.
Qed.

Lemma X13_unknown_keys_witness :
  ExitCriteria.evaluate (fun s => s) (fun _ => None) (fun _ => None)
    (fun _ => lit "70.0") annotated_payload =
  ExitCriteria.evaluate (fun s => s) (fun _ => None) (fun _ => None)
    (fun _ => lit "70.0") boundary_payload.
Proof.
  apply (X13_unknown_keys_are_ignored (fun s => s) (fun _ => None)
           (fun _ => None) (fun _ => lit "70.0") boundary_payload
           (lit "notes") ExitCriteria.PNone).
  intros [H|[H|[H|[H|[]]]]]; discriminate H.
Defined.

(** X14.  A key whose value is [null] counts as an absent key. *)
Theorem X14_null_is_absent
        (str_lower : str -> str) (float_of_str : str -> option float)
        (int_of_str : str -> option Z) (float_repr : float -> str)
        (payload : gmap str ExitCriteria.pyobj) (key : str) :
  ExitCriteria.evaluate str_lower float_of_str int_of_str float_repr
    (<[ key := ExitCriteria.PNone ]> payload) =
  ExitCriteria.evaluate str_lower float_of_str int_of_str float_repr
    (delete key payload).
Proof.
  apply evaluate_ext. intros k _. unfold ExitCriteria.get.
  destruct (decide (key = k)) as [->|Hne].
  - now rewrite lookup_insert_eq, lookup_delete_eq.
  - now rewrite lookup_insert_ne, lookup_delete_ne.
Qed.

(** ** exit_criteria_checker.py: the report *)

Lemma filter_met_flags (r : ExitCriteria.report) :
  length (List.filter snd (met_flags r)) =
  length (List.filter (fun kr => ExitCriteria.met (snd kr)) (ExitCriteria.criteria r)).
Proof.
  unfold met_flags. induction (ExitCriteria.criteria r) as [|kr l IH]; simpl.
  - reflexivity.
  - destruct (ExitCriteria.met (snd kr)); simpl; now rewrite IH.
Qed.

Section GateReport.
Variable str_lower : str -> str.
Variable float_of_str : str -> option float.
Variable int_of_str : str -> option Z.
Variable float_repr : float -> str.

(** How the fields of a returned report hang together. *)
Lemma evaluate_fields (payload : gmap str ExitCriteria.pyobj)
      (r : ExitCriteria.report) :
  ExitCriteria.evaluate str_lower float_of_str int_of_str float_repr payload
  = ExitCriteria.Ok r ->
  length (ExitCriteria.criteria r) = 4%nat
  /\ ExitCriteria.unmet r =
       List.map unmet_entry_of
         (List.filter (fun kr => negb (ExitCriteria.met (snd kr)))
                      (ExitCriteria.criteria r))
  /\ ExitCriteria.percent_score (met_count r) = ExitCriteria.Ok (ExitCriteria.score r)
  /\ ExitCriteria.decision r =
       (if met_count r =? 4 then lit "approve" else lit "iterate")
  /\ ExitCriteria.summary r =
       (if str_eqb (ExitCriteria.decision r) (lit "approve")
        then lit "Exit criteria met" else lit "Exit criteria NOT met").
Proof.
  intros H. unfold ExitCriteria.evaluate in H.
  destruct (ExitCriteria._as_float float_of_str _) as [bc|e];
    [|discriminate H].
  cbn [ExitCriteria.bind] in H. cbv zeta in H.
  destruct (ExitCriteria.percent_score _) as [sc|e] eqn:E; [|discriminate H].
  cbn [ExitCriteria.bind] in H. injection H as <-.
  unfold met_count. rewrite filter_met_flags.
  cbn [ExitCriteria.criteria ExitCriteria.unmet ExitCriteria.score
       ExitCriteria.decision ExitCriteria.summary].
  repeat split; try reflexivity. exact E.
Qed.
End GateReport.

Lemma met_count_bounds (r : ExitCriteria.report) :
  length (ExitCriteria.criteria r) = 4%nat ->
  0 <= met_count r <= 4
  /\ Z.of_nat (length (List.filter (fun kr => negb (ExitCriteria.met (snd kr)))
                                   (ExitCriteria.criteria r)))
     = 4 - met_count r.
Proof.
  intros Hlen. unfold met_count. rewrite filter_met_flags.
  pose proof (List.filter_length (fun kr => ExitCriteria.met (snd kr))
                                 (ExitCriteria.criteria r)) as Hsum.
  rewrite Hlen in Hsum. lia.
Qed.

(** X15.  The fields of a report agree with one another: [unmet] lists, in
    order, the criteria that are not met, with their reason, value and
    threshold; the score is 100 less 25 for each of them; the decision is
    [approve] exactly when [unmet] is empty, and the summary says so. *)
Theorem X15_report_fields_agree
        (str_lower : str -> str) (float_of_str : str -> option float)
        (int_of_str : str -> option Z) (float_repr : float -> str)
        (payload : gmap str ExitCriteria.pyobj) (r : ExitCriteria.report) :
  ExitCriteria.evaluate str_lower float_of_str int_of_str float_repr payload
  = ExitCriteria.Ok r ->
  ExitCriteria.unmet r =
    List.map unmet_entry_of
      (List.filter (fun kr => negb (ExitCriteria.met (snd kr)))
                   (ExitCriteria.criteria r))
  /\ ExitCriteria.score r = 100 - 25 * Z.of_nat (length (ExitCriteria.unmet r))
  /\ (ExitCriteria.unmet r = [] <-> ExitCriteria.decision r = lit "approve")
  /\ (ExitCriteria.decision r = lit "approve" ->
      ExitCriteria.summary r = lit "Exit criteria met")
  /\ (ExitCriteria.decision r <> lit "approve" ->
      ExitCriteria.decision r = lit "iterate"
      /\ ExitCriteria.summary r = lit "Exit criteria NOT met").
Proof.
  intros H.
  destruct (evaluate_fields _ _ _ _ _ _ H) as (Hlen & Hunmet & Hscore & Hdec & Hsum).
  destruct (met_count_bounds r Hlen) as [Hb Hun].
  rewrite percent_score_exact in Hscore by exact Hb. injection Hscore as Hscore.
  assert (Hl : Z.of_nat (length (ExitCriteria.unmet r)) = 4 - met_count r).
  { now rewrite Hunmet, length_map. }
  split; [exact Hunmet|]. split; [lia|].
  split.
  { rewrite Hdec. destruct (met_count r =? 4) eqn:E.
    - apply Z.eqb_eq in E. split; [reflexivity|]. intros _.
      destruct (ExitCriteria.unmet r); [reflexivity | simpl in Hl; lia].
    - apply Z.eqb_neq in E. split; [|discriminate].
      intros Hnil. rewrite Hnil in Hl. simpl in Hl. lia. }
  rewrite Hsum, Hdec. destruct (met_count r =? 4); split.
  - reflexivity.
  - intros Hne. now contradiction Hne.
  - discriminate.
  - intros _. split; reflexivity.
Qed.

Lemma X15_report_fields_witness :
  exists r,
    ExitCriteria.evaluate (fun s => s) (fun _ => None) (fun _ => None)
      (fun _ => lit "70.0") boundary_payload = ExitCriteria.Ok r
    /\ ExitCriteria.unmet r =
         List.map unmet_entry_of
           (List.filter (fun kr => negb (ExitCriteria.met (snd kr)))
                        (ExitCriteria.criteria r))
    /\ ExitCriteria.score r = 100 - 25 * Z.of_nat (length (ExitCriteria.unmet r))
    /\ (ExitCriteria.unmet r = [] <-> ExitCriteria.decision r = lit "approve")
    /\ (ExitCriteria.decision r = lit "approve" ->
        ExitCriteria.summary r = lit "Exit criteria met")
    /\ (ExitCriteria.decision r <> lit "approve" ->
        ExitCriteria.decision r = lit "iterate"
        /\ ExitCriteria.summary r = lit "Exit criteria NOT met").
Proof.
  assert (H : exists r,
             ExitCriteria.evaluate (fun s => s) (fun _ => None) (fun _ => None)
               (fun _ => lit "70.0") boundary_payload = ExitCriteria.Ok r).
  { vm_compute. eexists. reflexivity. }
  destruct H as [r Hr]. exists r. split; [exact Hr|].
  exact (X15_report_fields_agree (fun s => s) (fun _ => None) (fun _ => None)
           (fun _ => lit "70.0") boundary_payload r Hr).
Defined.

(** ** exit_criteria_checker.py: [main] *)

(** X16.  Input that is JSON but not an object (an array, a number, a
    string, [true], [null]) is answered on standard output with the line
    [{"ok": false, "error": "Input payload must be a JSON object"}];
    the exit code is still 0 and nothing goes to standard error. *)
Theorem X16_non_object_input
        (str_lower : str -> str) (float_of_str : str -> option float)
        (int_of_str : str -> option Z) (float_repr : float -> str)
        (json_loads : str -> ExitCriteria.res ExitCriteria.pyobj)
        (raw : str) (v : ExitCriteria.pyobj) :
  strip raw <> [] ->
  json_loads raw = ExitCriteria.Ok v ->
  (forall items, v <> ExitCriteria.PDict items) ->
  ExitCriteria.main str_lower float_of_str int_of_str float_repr json_loads raw
  = {| stdout := not_an_object_line; stderr := []; exit_code := 0 |}.
Proof.
  intros Hraw Hloads Hv. unfold ExitCriteria.main, ExitCriteria.main_try.
  destruct (strip raw) as [|c s] eqn:E; [contradiction|].
  cbn [truthy length Nat.eqb negb]. rewrite Hloads. cbn [ExitCriteria.bind].
  destruct v; try reflexivity. exfalso. now apply (Hv items).
Qed.

Lemma X16_non_object_witness :
  ExitCriteria.main (fun s => s) (fun _ => None) (fun _ => None)
    (fun _ => lit "70.0") (fun _ => ExitCriteria.Ok (ExitCriteria.PList []))
    (lit "[]")
  = {| stdout := not_an_object_line; stderr := []; exit_code := 0 |}.
Proof.
  apply (X16_non_object_input (fun s => s) (fun _ => None) (fun _ => None)
           (fun _ => lit "70.0") (fun _ => ExitCriteria.Ok (ExitCriteria.PList []))
           (lit "[]") (ExitCriteria.PList [])).
  - discriminate.
  - reflexivity.
  - discriminate.
Defined.


(** ** exit_criteria_checker.py: the criteria *)

Lemma SFcompare_antisym (x y : float) (c : comparison) :
  SFcompare x y = Some c -> SFcompare y x = Some (CompOpp c).
Proof.
  destruct x as [sx|sx| |sx mx ex], y as [sy|sy| |sy my ey]; simpl;
    try discriminate; intros [= <-]; f_equal;
    try (repeat match goal with b : bool |- _ => destruct b end; reflexivity).
  pose proof (Pos.compare_antisym mx my) as Hm. unfold Pos.compare in Hm.
  rewrite (Z.compare_antisym ex ey), Hm.
  destruct sx, sy, (ex ?= ey); simpl; rewrite ?CompOpp_involutive; reflexivity.
Qed.

(** Except for NaN, a float is above the threshold or at most the
    threshold, never both and never neither. *)
Lemma float_gt_not_le (c : float) :
  c <> S754_nan ->
  ExitCriteria.float_gt c ExitCriteria.BRANCH_COVERAGE_THRESHOLD =
  negb (ExitCriteria.float_le c ExitCriteria.BRANCH_COVERAGE_THRESHOLD).
Proof.
  intros Hc. unfold ExitCriteria.float_gt, ExitCriteria.float_le, SFltb, SFleb.
  destruct (SFcompare c ExitCriteria.BRANCH_COVERAGE_THRESHOLD) as [cmp|] eqn:E.
  - rewrite (SFcompare_antisym _ _ _ E). now destruct cmp.
  - destruct c; try discriminate E. contradiction.
Qed.

Section GateCriteria.
Variable str_lower : str -> str.
Variable float_of_str : str -> option float.
Variable int_of_str : str -> option Z.
Variable float_repr : float -> str.

(** The second criterion of a report. *)
Lemma evaluate_coverage (payload : gmap str ExitCriteria.pyobj)
      (bc : option float) (r : ExitCriteria.report) :
  ExitCriteria._as_float float_of_str
    (ExitCriteria.get payload (lit "branch_coverage")) = ExitCriteria.Ok bc ->
  ExitCriteria.evaluate str_lower float_of_str int_of_str float_repr payload
  = ExitCriteria.Ok r ->
  ExitCriteria.criteria r !! 1%nat =
  Some (lit "branch_coverage",
        {| ExitCriteria.met :=
             match bc with
             | Some c => ExitCriteria.float_gt c ExitCriteria.BRANCH_COVERAGE_THRESHOLD
             | None => false
             end;
           ExitCriteria.value := ExitCriteria.opt_float_json bc;
           ExitCriteria.threshold := JStr (ExitCriteria.threshold_text float_repr);
           ExitCriteria.reason :=
             match bc with
             | None => lit "branch_coverage must be provided"
             | Some c =>
                 if ExitCriteria.float_le c ExitCriteria.BRANCH_COVERAGE_THRESHOLD
                 then reason_below float_repr
                 else reason_above
             end |}).
Proof.
  intros Hbc H. unfold ExitCriteria.evaluate in H. rewrite Hbc in H.
  cbn [ExitCriteria.bind] in H. cbv zeta in H.
  destruct (ExitCriteria.percent_score _) as [sc|e]; [|discriminate H].
  cbn [ExitCriteria.bind] in H. injection H as <-. reflexivity.
Qed.
End GateCriteria.

(** X18.  When a coverage is given, the reason of the coverage criterion
    follows its [met] flag, [branch coverage above threshold] when met and
    [branch_coverage must be > 70.0] when not, for every float but one: a
    NaN coverage is not met and still carries the reason
    [branch coverage above threshold]. *)
Theorem X18_coverage_reason
        (str_lower : str -> str) (float_of_str : str -> option float)
        (int_of_str : str -> option Z) (float_repr : float -> str)
        (payload : gmap str ExitCriteria.pyobj) (c : float) :
  ExitCriteria._as_float float_of_str
    (ExitCriteria.get payload (lit "branch_coverage"))
  = ExitCriteria.Ok (Some c) ->
  exists r cr,
    ExitCriteria.evaluate str_lower float_of_str int_of_str float_repr payload
    = ExitCriteria.Ok r
    /\ ExitCriteria.criteria r !! 1%nat = Some (lit "branch_coverage", cr)
    /\ ExitCriteria.value cr = JFloat c
    /\ (c <> S754_nan ->
        ExitCriteria.reason cr =
        if ExitCriteria.met cr then reason_above else reason_below float_repr)
    /\ (c = S754_nan ->
        ExitCriteria.met cr = false /\ ExitCriteria.reason cr = reason_above).
Proof.
  intros Hbc.
  destruct (evaluate_returns str_lower float_of_str int_of_str float_repr
              payload (Some c) Hbc) as (r & Hr & _).
  exists r. eexists. split; [exact Hr|].
  split; [exact (evaluate_coverage _ _ _ _ _ _ _ Hbc Hr)|].
  cbn [ExitCriteria.met ExitCriteria.reason ExitCriteria.value
       ExitCriteria.opt_float_json].
  split; [reflexivity|]. split.
  - intros Hc. rewrite (float_gt_not_le c Hc).
    now destruct (ExitCriteria.float_le c ExitCriteria.BRANCH_COVERAGE_THRESHOLD).
  - intros ->. split; reflexivity.
Qed.

Lemma X18_coverage_reason_witness :
  exists r cr,
    ExitCriteria.evaluate (fun s => s) (fun _ => None) (fun _ => None)
      (fun _ => lit "70.0") boundary_payload = ExitCriteria.Ok r
    /\ ExitCriteria.criteria r !! 1%nat = Some (lit "branch_coverage", cr)
    /\ ExitCriteria.value cr = JFloat ExitCriteria.BRANCH_COVERAGE_THRESHOLD
    /\ (ExitCriteria.BRANCH_COVERAGE_THRESHOLD <> S754_nan ->
        ExitCriteria.reason cr =
        if ExitCriteria.met cr then reason_above
        else reason_below (fun _ => lit "70.0"))
    /\ (ExitCriteria.BRANCH_COVERAGE_THRESHOLD = S754_nan ->
        ExitCriteria.met cr = false /\ ExitCriteria.reason cr = reason_above).
Proof.
  apply (X18_coverage_reason (fun s => s) (fun _ => None) (fun _ => None)
           (fun _ => lit "70.0") boundary_payload
           ExitCriteria.BRANCH_COVERAGE_THRESHOLD).
  vm_compute. reflexivity.
Defined.

Lemma int_of_float_zero (f : float) :
  ExitCriteria.int_of_float f = Some 0 <-> exists sign, f = S754_zero sign.
Proof.
  split; [|intros [sign ->]; reflexivity].
  destruct f as [sign|sign| |sign m e]; simpl; try discriminate.
  - intros _. now exists sign.
  - assert (Hpos : forall v, 0 < v ->
               option_map (fun v => if sign then - v else v) (Some v) <> Some 0).
    { intros v Hv. simpl. destruct sign; intros [= H]; lia. }
    destruct (0 <=? e) eqn:E.
    + intros H. exfalso. revert H. apply Hpos.
      apply Z.leb_le in E. apply Z.mul_pos_pos; [lia|].
      now apply Z.pow_pos_nonneg.
    + apply Z.leb_gt in E.
      destruct (Z.pos m mod 2 ^ (- e) =? 0) eqn:M; [|discriminate].
      intros H. exfalso. revert H. apply Hpos.
      apply Z.eqb_eq in M.
      assert (Hd : 0 < 2 ^ (- e)) by (apply Z.pow_pos_nonneg; lia).
      pose proof (Z.div_mod (Z.pos m) (2 ^ (- e)) ltac:(lia)) as Hdm.
      rewrite M in Hdm. nia.
Qed.

(** X19.  The count of critical issues is taken as zero for the integer 0,
    for the floats 0.0 and -0.0, and for a string that [int] reads as 0
    once stripped; for nothing else: no boolean (not even [false]), no
    other float, no list, no object and no [null]. *)
Theorem X19_zero_critical_issues
        (int_of_str : str -> option Z) (v : ExitCriteria.pyobj) :
  ExitCriteria._as_int int_of_str v = Some 0 <->
  v = ExitCriteria.PInt 0
  \/ (exists sign, v = ExitCriteria.PFloat (S754_zero sign))
  \/ (exists s, v = ExitCriteria.PStr s /\ int_of_str (strip s) = Some 0).
Proof.
  destruct v; simpl.
  - split; [discriminate | intros [H|[[? H]|(? & H & _)]]; discriminate H].
  - split; [discriminate | intros [H|[[? H]|(? & H & _)]]; discriminate H].
  - split.
    + intros [= ->]. now left.
    + intros [[= ->]|[[? H]|(? & H & _)]]; [reflexivity | discriminate H..].
  - rewrite int_of_float_zero. split.
    + intros [sign ->]. right; left. now exists sign.
    + intros [H|[[sign [= ->]]|(? & H & _)]]; [discriminate H | | discriminate H].
      now exists sign.
  - split.
    + intros H. right; right. now exists s.
    + intros [H|[[? H]|(s' & [= <-] & H)]]; [discriminate H.. | exact H].
  - split; [discriminate | intros [H|[[? H]|(? & H & _)]]; discriminate H].
  - split; [discriminate | intros [H|[[? H]|(? & H & _)]]; discriminate H].
Qed.

Lemma small_integers_agree :
  forallb integer_coverage_agrees small_integers = true.
Proof. vm_compute. reflexivity. Qed.

Lemma small_integers_spec (z : Z) :
  -1000 <= z <= 1000 -> In z small_integers.
Proof.
  intros Hz. unfold small_integers. apply in_map_iff.
  exists (Z.to_nat (z + 1000)). split; [lia|].
  apply in_seq. lia.
Qed.

(** X20.  For a coverage given as an integer between -1000 and 1000 the
    criterion is met exactly when the integer is greater than 70. *)
Theorem X20_integer_coverage
        (str_lower : str -> str) (float_of_str : str -> option float)
        (int_of_str : str -> option Z) (float_repr : float -> str)
        (payload : gmap str ExitCriteria.pyobj) (z : Z) :
  -1000 <= z <= 1000 ->
  payload !! lit "branch_coverage" = Some (ExitCriteria.PInt z) ->
  exists r,
    ExitCriteria.evaluate str_lower float_of_str int_of_str float_repr payload
    = ExitCriteria.Ok r
    /\ (In (lit "branch_coverage", true) (met_flags r) <-> 70 < z)
    /\ (In (lit "branch_coverage", false) (met_flags r) <-> z <= 70).
Proof.
  intros Hz Hget.
  pose proof small_integers_agree as Htable.
  rewrite forallb_forall in Htable.
  specialize (Htable z (small_integers_spec z Hz)).
  unfold integer_coverage_agrees in Htable.
  destruct (ExitCriteria.float_of_int z) as [f|e] eqn:F; [|discriminate Htable].
  apply Bool.eqb_prop in Htable.
  assert (Hbc : ExitCriteria._as_float float_of_str
                  (ExitCriteria.get payload (lit "branch_coverage"))
                = ExitCriteria.Ok (Some f)).
  { unfold ExitCriteria.get. rewrite Hget. simpl. now rewrite F. }
  destruct (evaluate_returns str_lower float_of_str int_of_str float_repr
              payload (Some f) Hbc) as (r & Hr & _ & Hflags & _).
  exists r. split; [exact Hr|]. rewrite Hflags, Htable.
  assert (Hkey : forall (k : str) (b b' : bool) (x : bool),
             k <> lit "branch_coverage" ->
             (k, x) <> (lit "branch_coverage", b')) by (intros; congruence).
  split; split.
  - intros [H|[H|[H|[H|[]]]]]; try (exfalso; revert H; apply Hkey; try exact true; discriminate).
    injection H as H. now apply Z.ltb_lt.
  - intros H. apply Z.ltb_lt in H. rewrite H. right; left. reflexivity.
  - intros [H|[H|[H|[H|[]]]]]; try (exfalso; revert H; apply Hkey; try exact true; discriminate).
    injection H as H. apply Z.ltb_ge. exact H.
  - intros H. apply Z.ltb_ge in H. rewrite H. right; left. reflexivity.
Qed.

Lemma X20_integer_coverage_witness :
  exists r,
    ExitCriteria.evaluate (fun s => s) (fun _ => None) (fun _ => None)
      (fun _ => lit "70.0") above_payload = ExitCriteria.Ok r
    /\ (In (lit "branch_coverage", true) (met_flags r) <-> 70 < 71)
    /\ (In (lit "branch_coverage", false) (met_flags r) <-> 71 <= 70).
Proof.
  apply (X20_integer_coverage (fun s => s) (fun _ => None) (fun _ => None)
           (fun _ => lit "70.0") above_payload 71).
  - lia.
  - vm_compute. reflexivity.
Defined.

(** ** The scripts as commands *)




(** ** Stripping *)

Lemma lstrip_app_whitespace (a s : str) :
  forallb isspace a = true -> lstrip (a ++ s) = lstrip s.
Proof.
  induction a as [|c a IH]; simpl; [reflexivity|].
  intros H. apply andb_true_iff in H. destruct H as [Hc Ha].
  rewrite Hc. auto.
Qed.

Lemma lstrip_app_keep (s b : str) :
  lstrip s <> [] -> lstrip (s ++ b) = lstrip s ++ b.
Proof.
  induction s as [|c s IH]; simpl; [congruence|].
  destruct (isspace c); [exact IH | reflexivity].
Qed.

Lemma rstrip_app_whitespace (s b : str) :
  forallb isspace b = true -> rstrip (s ++ b) = rstrip s.
Proof.
  intros Hb. unfold rstrip. rewrite rev_app_distr, lstrip_app_whitespace.
  - reflexivity.
  - rewrite forallb_forall in *. intros x Hx. apply Hb. now apply in_rev.
Qed.

Lemma strip_padding (a s b : str) :
  forallb isspace a = true -> forallb isspace b = true ->
  strip (a ++ s ++ b) = strip s.
Proof.
  intros Ha Hb. unfold strip. rewrite (lstrip_app_whitespace a _ Ha).
  destruct (lstrip s) as [|c t] eqn:E.
  - assert (Hs : lstrip (s ++ b) = []).
    { clear Ha. induction s as [|x s IH]; simpl in *.
      - now apply lstrip_whitespace.
      - destruct (isspace x); [auto | discriminate E]. }
    now rewrite Hs.
  - rewrite lstrip_app_keep by (rewrite E; discriminate).
    rewrite E. now apply rstrip_app_whitespace.
Qed.

(** X23.  White space around a string value does not count: padding the
    string with white space on either side changes nothing in what
    [_as_bool], [_as_float] and [_as_int] make of it. *)
Theorem X23_string_padding_is_ignored
        (str_lower : str -> str) (float_of_str : str -> option float)
        (int_of_str : str -> option Z) (a s b : str) :
  forallb isspace a = true -> forallb isspace b = true ->
  ExitCriteria._as_bool str_lower (ExitCriteria.PStr (a ++ s ++ b))
  = ExitCriteria._as_bool str_lower (ExitCriteria.PStr s)
  /\ ExitCriteria._as_float float_of_str (ExitCriteria.PStr (a ++ s ++ b))
     = ExitCriteria._as_float float_of_str (ExitCriteria.PStr s)
  /\ ExitCriteria._as_int int_of_str (ExitCriteria.PStr (a ++ s ++ b))
     = ExitCriteria._as_int int_of_str (ExitCriteria.PStr s).
Proof.
  intros Ha Hb. simpl. rewrite (strip_padding a s b Ha Hb). auto.
Qed.

Lemma X23_string_padding_witness :
  ExitCriteria._as_bool (fun s => s) (ExitCriteria.PStr ([32; 9]%N ++ lit "yes" ++ [10]%N))
  = ExitCriteria._as_bool (fun s => s) (ExitCriteria.PStr (lit "yes"))
  /\ ExitCriteria._as_float (fun _ => None) (ExitCriteria.PStr ([32; 9]%N ++ lit "yes" ++ [10]%N))
     = ExitCriteria._as_float (fun _ => None) (ExitCriteria.PStr (lit "yes"))
  /\ ExitCriteria._as_int (fun _ => None) (ExitCriteria.PStr ([32; 9]%N ++ lit "yes" ++ [10]%N))
     = ExitCriteria._as_int (fun _ => None) (ExitCriteria.PStr (lit "yes")).
Proof.
  apply (X23_string_padding_is_ignored (fun s => s) (fun _ => None)
           (fun _ => None) [32; 9]%N (lit "yes") [10]%N); reflexivity.
Defined.

(** ** validate_docstrings.py: where the documented names come from *)

Lemma suffix_skipn (n : nat) (s : str) : skipn n s `suffix_of` s.
Proof. exists (firstn n s). now rewrite firstn_skipn. Qed.

Lemma substring_of_suffix (w s text : str) :
  substring w s -> s `suffix_of` text -> substring w text.
Proof.
  intros (b & a & ->) [pre ->]. exists (pre ++ b), a.
  now rewrite <- !app_assoc.
Qed.

Lemma match_lit_suffix {A} db fl (l : str) :
  forall prev s (k : option N -> str -> option A) a,
    re.match_lit db fl l prev s k = Some a ->
    exists p s', s' `suffix_of` s /\ k p s' = Some a.
Proof.
  induction l as [|c l IH]; intros prev s k a; simpl.
  - intros H. exists prev, s. split; [reflexivity | exact H].
  - destruct s as [|t s]; [discriminate|].
    destruct (re.char_match db fl c t); [|discriminate].
    intros H. apply IH in H. destruct H as (p & s' & Hs & Hk).
    exists p, s'. split; [now apply suffix_cons_r | exact Hk].
Qed.

(** The capture of a match is left as it was or set to a piece of the text
    that the match went through, and the match ends inside that text. *)
Lemma match_at_substring {A} db fl (r : re.regex) :
  forall prev s cap (k : option N -> str -> option str -> option A) a,
    re.match_at db fl r prev s cap k = Some a ->
    exists p s' cap',
      s' `suffix_of` s
      /\ (cap' = cap \/ exists w, cap' = Some w /\ substring w s)
      /\ k p s' cap' = Some a.
Proof.
  induction r as [l|c|c|r1 IH1|r1 IH1 r2 IH2|r1 IH1 r2 IH2|r1 IH1|];
    intros prev s cap k a M.
  - simpl in M. apply match_lit_suffix in M. destruct M as (p & s' & Hs & Hk).
    exists p, s', cap. auto.
  - simpl in M. apply match_star_run in M. destruct M as (n & p & _ & _ & Hk).
    exists p, (skipn n s), cap. split; [apply suffix_skipn | auto].
  - apply match_plus_run in M. destruct M as (n & p & _ & _ & Hk).
    exists p, (skipn n s), cap. split; [apply suffix_skipn | auto].
  - simpl in M. destruct (re.match_at db fl r1 prev s cap k) eqn:M1.
    + injection M as <-. exact (IH1 _ _ _ _ _ M1).
    + exists prev, s, cap. split; [reflexivity | auto].
  - simpl in M. destruct (re.match_at db fl r1 prev s cap k) eqn:M1.
    + injection M as <-. exact (IH1 _ _ _ _ _ M1).
    + exact (IH2 _ _ _ _ _ M).
  - simpl in M. apply IH1 in M. destruct M as (p1 & s1 & cap1 & Hs1 & Hc1 & M).
    apply IH2 in M. destruct M as (p & s' & cap' & Hs & Hc & Hk).
    exists p, s', cap'. split; [now transitivity s1|]. split; [|exact Hk].
    destruct Hc as [->|(w & -> & Hw)].
    + exact Hc1.
    + right. exists w. split; [reflexivity|].
      eapply substring_of_suffix; eauto.
  - simpl in M. apply IH1 in M. destruct M as (p & s' & cap1 & Hs & _ & Hk).
    exists p, s', (Some (firstn (length s - length s') s)).
    split; [exact Hs|]. split; [|exact Hk].
    right. eexists. split; [reflexivity|].
    exists [], (skipn (length s - length s') s). simpl.
    now rewrite firstn_skipn.
  - simpl in M. destruct (re.at_bol fl prev); [|discriminate].
    exists prev, s, cap. split; [reflexivity | auto].
Qed.

Lemma match_here_substring db fl (r : re.regex) prev (s : str) cap n :
  re.match_here db fl r prev s = Some (cap, n) ->
  substring (default [] cap) s.
Proof.
  intros M. unfold re.match_here in M. apply match_at_substring in M.
  destruct M as (p & s' & cap' & _ & Hc & [= <- _]).
  destruct Hc as [->|(w & -> & Hw)]; [|exact Hw].
  exists [], s. reflexivity.
Qed.

Lemma findall_from_substring db fl (r : re.regex) (text : str) :
  forall (s : str) skip prev w,
    s `suffix_of` text ->
    In w (re.findall_from db fl r skip prev s) -> substring w text.
Proof.
  induction s as [|t s IH]; intros skip prev w Hs.
  - destruct skip; simpl; [|intros []].
    destruct (re.match_here db fl r prev []) as [[cap n]|] eqn:M; [|intros []].
    intros [<-|[]]. eapply substring_of_suffix; [|exact Hs].
    eapply match_here_substring; eauto.
  - assert (Hs' : s `suffix_of` text).
    { destruct Hs as [pre ->]. exists (pre ++ [t]). now rewrite <- app_assoc. }
    destruct skip; simpl; [|now apply IH].
    destruct (re.match_here db fl r prev (t :: s)) as [[cap n]|] eqn:M;
      [|now apply IH].
    intros [<-|H]; [|eapply IH; eauto].
    eapply substring_of_suffix; [|exact Hs].
    eapply match_here_substring; eauto.
Qed.

(** X24.  The documented names are read off the docstring: each of them
    occurs in it, as a run of consecutive characters. *)
Theorem X24_documented_names_occur_in_docstring
        (db : unicode_db) (list_set : list str -> list str)
        (doc p : str) :
  set_order list_set ->
  In p (ValidateDocstrings.parse_docstring_params db list_set (Some doc)) ->
  substring p doc.
Proof.
  intros Hset. unfold ValidateDocstrings.parse_docstring_params.
  destruct (negb (truthy doc)); [intros []|].
  cbv zeta.
  match goal with
  | |- context [list_set ?params] => destruct (Hset params) as [_ Hin]
  end.
  intros Hp. apply Hin in Hp.
  rewrite !in_app_iff in Hp. destruct Hp as [[[[]|Hp]|Hp]|Hp];
    unfold re.findall in Hp;
    eapply findall_from_substring in Hp; try exact Hp; reflexivity.
Qed.

Lemma X24_documented_names_witness :
  substring (lit "y") two_params_doc.
Proof.
  apply (X24_documented_names_occur_in_docstring ascii_only_db order_a
           two_params_doc (lit "y") order_a_set_order).
  right. left. reflexivity.
Defined.
